(** * Tool handlers and query translation of the MCP joke / Jira / ServiceNow server

    A shallow embedding of the tool handlers registered with [server.tool]
    in the server module (the full module registers the joke tools, the Jira
    tool and the ServiceNow tool; [Jira.ts] registers the joke tools and the
    same ServiceNow tool, character for character).

    - JavaScript strings are sequences of UTF-16 code units ([jsstring]).
    - A handler is an [Async] computation: it reads the network (an oracle
      from requests to responses), appends every request it sends to a log,
      and either fulfils with a result or rejects with the thrown value.
    - The bodies of the upstream responses are typed by the shape the handler
      reads from them ([data.issues], [i.fields.summary], ...). *)

From Stdlib Require Import List NArith ZArith Bool Lia.
From Stdlib Require Import Strings.String Strings.Ascii Numbers.DecimalString.
From Stdlib Require Import Floats.PrimFloat Floats.FloatOps Floats.SpecFloat.
Import ListNotations.

Set Implicit Arguments.

(** ** JavaScript strings *)

Module JS.

(** A UTF-16 code unit, a number below 65536. *)
Definition code_unit := N.

Definition jsstring := list code_unit.

(** The string literal of the source text (ASCII literals only). *)
Definition str (s : string) : jsstring :=
  map N_of_ascii (list_ascii_of_string s).

(** ToBoolean of a string: the empty string is the only falsy one. *)
Definition truthy (s : jsstring) : bool :=
  match s with
  | [] => false
  | _ :: _ => true
  end.

(** ToBoolean of [string | undefined]. *)
Definition truthy_opt (o : option jsstring) : bool :=
  match o with
  | Some s => truthy s
  | None => false
  end.

(** ToString of [string | undefined], as a template literal applies it. *)
Definition interp (o : option jsstring) : jsstring :=
  match o with
  | Some s => s
  | None => str "undefined"
  end.

(** [a || b] on strings. *)
Definition or_else (a b : jsstring) : jsstring :=
  if truthy a then a else b.

(** [o ?? d]. *)
Definition nullish {A : Type} (o : option A) (d : A) : A :=
  match o with
  | Some a => a
  | None => d
  end.

(** WhiteSpace and LineTerminator code points of ECMAScript: TAB, LF, VT, FF,
    CR, SP, NBSP, U+1680, U+2000..U+200A, U+2028, U+2029, U+202F, U+205F,
    U+3000 and U+FEFF.  All of them are single code units. *)
Definition is_white_space (c : code_unit) : bool :=
  match c with
  | 9 | 10 | 11 | 12 | 13 | 32 | 160 | 5760
  | 8232 | 8233 | 8239 | 8287 | 12288 | 65279 => true
  | _ => (8192 <=? c) && (c <=? 8202)
  end%N.

Fixpoint trimStart (s : jsstring) : jsstring :=
  match s with
  | [] => []
  | c :: rest => if is_white_space c then trimStart rest else s
  end.

Definition trimEnd (s : jsstring) : jsstring :=
  rev (trimStart (rev s)).

(** [String.prototype.trim]. *)
Definition trim (s : jsstring) : jsstring :=
  trimEnd (trimStart s).

(** [Array.prototype.push] on an array of strings (the new array). *)
Definition push (arr : list jsstring) (x : jsstring) : list jsstring :=
  arr ++ [x].

(** [Array.prototype.join] on an array of strings. *)
Fixpoint join (sep : jsstring) (arr : list jsstring) : jsstring :=
  match arr with
  | [] => []
  | x :: rest =>
      match rest with
      | [] => x
      | _ :: _ => x ++ sep ++ join sep rest
      end
  end.

(** [String.prototype.startsWith]. *)
Fixpoint startsWith (s p : jsstring) {struct p} : bool :=
  match p, s with
  | [], _ => true
  | _ :: _, [] => false
  | a :: p', b :: s' => (a =? b)%N && startsWith s' p'
  end.

(** [String.prototype.includes]. *)
Fixpoint includes (s p : jsstring) : bool :=
  startsWith s p ||
  match s with
  | [] => false
  | _ :: s' => includes s' p
  end.

(** [String.prototype.split] with a non-empty separator: the pieces between
    the occurrences of [sep], found from the left without overlap.  [skip]
    counts the code units of a separator still to pass over, [cur] holds the
    piece read so far, reversed. *)
Fixpoint split_from (sep : jsstring) (skip : nat) (cur s : jsstring)
  : list jsstring :=
  match s with
  | [] => [rev cur]
  | c :: rest =>
      match skip with
      | S k => split_from sep k cur rest
      | O =>
          if startsWith s sep
          then rev cur :: split_from sep (pred (List.length sep)) [] rest
          else split_from sep 0 (c :: cur) rest
      end
  end.

Definition split (s sep : jsstring) : list jsstring :=
  split_from sep 0 [] s.

(** *** Numbers

    A Number is an IEEE 754 double, [float].  The limit of a tool call
    arrives as a JSON number, which is a finite double; [number] is the type
    of those. *)

Definition is_finite (x : float) : bool :=
  match Prim2SF x with
  | S754_zero _ | S754_finite _ _ _ => true
  | S754_infinity _ | S754_nan => false
  end.

Record number := {
  float_of : float;
  finite : is_finite float_of = true
}.

(** The literal [5] of [limit ?? 5]. *)
Definition five : number := {| float_of := 5; finite := eq_refl |}.

(** The decimal digits of an integer, with a minus sign below zero. *)
Definition decimal (n : Z) : jsstring :=
  str (NilZero.string_of_int (Z.to_int n)).

Definition zeros (n : Z) : jsstring := repeat 48%N (Z.to_nat n).

(** The digits of Number::toString: for a positive double [m * 2^e], the
    integers [s] and [t] such that [s * 10^t] rounds to the double, [s] has
    as few digits as possible and, among those, [s * 10^t] is the nearest to
    the double.  All comparisons are exact, on integers. *)
Module Shortest.

(** [s * 10^t] against [b * 2^e], both sides cleared of negative powers. *)
Definition compare_scaled (s t b e : Z) : comparison :=
  (s * 10 ^ Z.max t 0 * 2 ^ Z.max (- e) 0
   ?= b * 10 ^ Z.max (- t) 0 * 2 ^ Z.max e 0)%Z.

(** The integer part of [b * 2^e / 10^t]. *)
Definition floor_scaled (b e t : Z) : Z :=
  (b * 2 ^ Z.max e 0 * 10 ^ Z.max (- t) 0
   / (2 ^ Z.max (- e) 0 * 10 ^ Z.max t 0))%Z.

Definition reaches (d b e : Z) : bool :=
  match compare_scaled 1 d b e with
  | Gt => false
  | _ => true
  end.

(** The [d] with [10^d <= b * 2^e < 10^(d+1)], found from the binary
    logarithm. *)
Definition log10_floor (b e : Z) : Z :=
  let d := ((Z.log2 b + e) * 30103 / 100000 - 1)%Z in
  (if reaches (d + 1) b e then
     if reaches (d + 2) b e then
       if reaches (d + 3) b e then d + 3 else d + 2
     else d + 1
   else d)%Z.

Fixpoint strip_zeros (fuel : nat) (s t : Z) : Z * Z :=
  match fuel with
  | O => (s, t)
  | S fuel' =>
      if (s mod 10 =? 0)%Z then strip_zeros fuel' (s / 10)%Z (t + 1)%Z
      else (s, t)
  end.

Section Digits.
(** The double is [m * 2^e], [m] its mantissa of 53 bits (fewer for a
    subnormal). *)
Variables m e : Z.

(** In units of a quarter of the last place: the double, and the ends of
    the interval of the reals that round to it. *)
Definition unit_ : Z := (e - 2)%Z.

Definition mid : Z := (4 * m)%Z.

Definition high : Z := (4 * m + 2)%Z.

Definition low : Z :=
  (if (m =? 2 ^ 52) && (-1074 <? e) then 4 * m - 1 else 4 * m - 2)%Z.

(** A real at an end of the interval rounds to the double when the mantissa
    is even. *)
Definition inside (s t : Z) : bool :=
  match compare_scaled s t low unit_ with
  | Gt => true
  | Eq => Z.even m
  | Lt => false
  end
  &&
  match compare_scaled s t high unit_ with
  | Lt => true
  | Eq => Z.even m
  | Gt => false
  end.

(** Of two candidates in the interval, the one nearer to the double, the
    even one when they are as near. *)
Definition nearer (lo hi : Z * Z) : Z * Z :=
  let t := Z.min (snd lo) (snd hi) in
  let l := (fst lo * 10 ^ (snd lo - t))%Z in
  let h := (fst hi * 10 ^ (snd hi - t))%Z in
  match compare_scaled (l + h) t (2 * mid) unit_ with
  | Gt => lo
  | Lt => hi
  | Eq => if Z.even (fst lo) then lo else hi
  end.

(** The candidates with [k] digits just below and just above the double,
    [k] going up from 1. *)
Fixpoint search (fuel : nat) (k d : Z) : Z * Z :=
  let t := (d - (k - 1))%Z in
  let fl := floor_scaled mid unit_ t in
  let lo := (fl, t) in
  let hi := (if fl + 1 <? 10 ^ k then (fl + 1, t)
             else (10 ^ (k - 1), t + 1))%Z in
  match fuel with
  | O => lo
  | S fuel' =>
      match inside (fst lo) (snd lo), inside (fst hi) (snd hi) with
      | true, true => nearer lo hi
      | true, false => lo
      | false, true => hi
      | false, false => search fuel' (k + 1)%Z d
      end
  end.

(** Seventeen digits always identify a double. *)
Definition digits : Z * Z :=
  let (s, t) := search 17 1 (log10_floor mid unit_) in
  strip_zeros 20 s t.
End Digits.

End Shortest.

(** Number::toString of a positive finite double [m * 2^e]: with [k]
    digits [s] and [n = t + k], plain decimal when [-5 <= n <= 21], the
    exponent form otherwise. *)
Definition positive_toString (m e : Z) : jsstring :=
  let (s, t) := Shortest.digits m e in
  let ds := decimal s in
  let k := Z.of_nat (List.length ds) in
  let n := (t + k)%Z in
  if ((-5 <=? n) && (n <=? 21))%Z then
    if (k <=? n)%Z then ds ++ zeros (n - k)
    else if (0 <? n)%Z
         then firstn (Z.to_nat n) ds ++ str "." ++ skipn (Z.to_nat n) ds
         else str "0." ++ zeros (- n) ++ ds
  else
    let exponent :=
      str "e" ++ (if (0 <=? n - 1)%Z then str "+" else str "-") ++
      decimal (Z.abs (n - 1)) in
    if (k =? 1)%Z then ds ++ exponent
    else firstn 1 ds ++ str "." ++ skipn 1 ds ++ exponent.

(** Number::toString of any double. *)
Definition float_toString (x : float) : jsstring :=
  match Prim2SF x with
  | S754_nan => str "NaN"
  | S754_zero _ => str "0"
  | S754_infinity false => str "Infinity"
  | S754_infinity true => str "-Infinity"
  | S754_finite false m e => positive_toString (Zpos m) e
  | S754_finite true m e => str "-" ++ positive_toString (Zpos m) e
  end.

(** [`${n}`] for a Number. *)
Definition Number_toString (n : number) : jsstring :=
  float_toString (float_of n).

(** *** encodeURIComponent *)

Definition hex_digit (n : N) : code_unit :=
  (if n <? 10 then 48 + n else 55 + n)%N.

(** [%XX] of one octet, upper-case hexadecimal. *)
Definition percent (b : N) : jsstring :=
  [37%N; hex_digit (b / 16); hex_digit (b mod 16)].

(** The set the function leaves as it is: letters, digits and
    [- _ . ! ~ * ' ( )]. *)
Definition is_unreserved (c : code_unit) : bool :=
  ((65 <=? c) && (c <=? 90) || (97 <=? c) && (c <=? 122) ||
   (48 <=? c) && (c <=? 57) ||
   match c with
   | 45 | 95 | 46 | 33 | 126 | 42 | 39 | 40 | 41 => true
   | _ => false
   end)%N.

(** The UTF-8 octets of a code point. *)
Definition utf8 (cp : N) : list N :=
  (if cp <? 128 then [cp]
   else if cp <? 2048 then [192 + cp / 64; 128 + cp mod 64]
   else if cp <? 65536 then
     [224 + cp / 4096; 128 + (cp / 64) mod 64; 128 + cp mod 64]
   else
     [240 + cp / 262144; 128 + (cp / 4096) mod 64;
      128 + (cp / 64) mod 64; 128 + cp mod 64])%N.

Definition is_high_surrogate (c : code_unit) : bool :=
  ((55296 <=? c) && (c <=? 56319))%N.

Definition is_low_surrogate (c : code_unit) : bool :=
  ((56320 <=? c) && (c <=? 57343))%N.

Definition escape (cp : N) : jsstring :=
  flat_map percent (utf8 cp).

(** [None] is the URIError thrown at a surrogate without its partner. *)
Fixpoint encodeURIComponent (s : jsstring) : option jsstring :=
  match s with
  | [] => Some []
  | c :: rest =>
      if is_unreserved c then option_map (cons c) (encodeURIComponent rest)
      else if is_low_surrogate c then None
      else if is_high_surrogate c then
        match rest with
        | [] => None
        | d :: rest' =>
            if is_low_surrogate d
            then option_map
                   (app (escape ((c - 55296) * 1024 + (d - 56320) + 65536)%N))
                   (encodeURIComponent rest')
            else None
        end
      else option_map (app (escape c)) (encodeURIComponent rest)
  end.

End JS.

Import JS.

(** The double quote of the template literals [status="${status}"]. *)
Definition dquote : jsstring := [34%N].

(** ** Outbound HTTP and asynchronous handlers *)

Module Http.

(** What [fetch(url, { headers })] sends. *)
Record Request := {
  url : jsstring;
  headers : list (jsstring * jsstring)
}.

(** What [fetch] resolves to.  [text] is the raw body that
    [response.text()] reads; [json] is what [response.json()] parses it to,
    [None] when the body is not JSON.  [Data] is the shape the handler reads
    from the parsed body; bodies that parse to another shape are outside
    this development. *)
Record Response (Data : Type) := {
  status : N;
  text : jsstring;
  json : option Data
}.

(** [response.ok]: the status is in the range 200-299. *)
Definition ok {Data : Type} (response : Response Data) : bool :=
  ((200 <=? status response) && (status response <=? 299))%N.

(** The network: the response to each request, [None] when the request
    fails and [fetch] rejects. *)
Definition Network (Data : Type) := Request -> option (Response Data).

End Http.

(** What a handler can throw. *)
Inductive Thrown :=
| Error (message : jsstring)
| URIError
| SyntaxError
| TypeError.

Inductive Settled (R : Type) :=
| Fulfilled (r : R)
| Rejected (e : Thrown).

Arguments Fulfilled {R} r.
Arguments Rejected {R} e.

(** An [async] function body: given the network and the log of the requests
    sent so far, it settles and leaves the log extended by its own
    requests (the latest last). *)
Definition Async (Data R : Type) :=
  Http.Network Data -> list Http.Request -> Settled R * list Http.Request.

Section AsyncOps.
Context {Data : Type}.

Definition ret {R : Type} (r : R) : Async Data R :=
  fun _ log => (Fulfilled r, log).

Definition throw {R : Type} (e : Thrown) : Async Data R :=
  fun _ log => (Rejected e, log).

Definition bind {A B : Type} (c : Async Data A) (k : A -> Async Data B)
  : Async Data B :=
  fun net log =>
    match c net log with
    | (Fulfilled a, log') => k a net log'
    | (Rejected e, log') => (Rejected e, log')
    end.

(** [await fetch(url, { headers })]. *)
Definition fetch (url : jsstring) (headers : list (jsstring * jsstring))
  : Async Data (Http.Response Data) :=
  fun net log =>
    let request := {| Http.url := url; Http.headers := headers |} in
    match net request with
    | Some response => (Fulfilled response, log ++ [request])
    | None => (Rejected TypeError, log ++ [request])
    end.

(** [await response.text()]. *)
Definition response_text (response : Http.Response Data)
  : Async Data jsstring :=
  ret (Http.text response).

(** [await response.json()]. *)
Definition response_json (response : Http.Response Data)
  : Async Data Data :=
  match Http.json response with
  | Some data => ret data
  | None => throw SyntaxError
  end.

(** [encodeURIComponent(s)] inside an [async] body. *)
Definition encodeURI_ (s : jsstring) : Async Data jsstring :=
  match encodeURIComponent s with
  | Some e => ret e
  | None => throw URIError
  end.

(** One call of a handler on a fresh log. *)
Definition run {R : Type} (handler : Async Data R) (net : Http.Network Data)
  : Settled R * list Http.Request :=
  handler net [].
End AsyncOps.

Declare Scope async_scope.
Delimit Scope async_scope with async.
Notation "x <- 'await' c ;; k" := (bind c (fun x => k))
  (at level 100, c at next level, right associativity) : async_scope.
Open Scope async_scope.

(** The value every handler returns:
    [{ content: [{ type: "text", text }] }]. *)
Record TextContent := {
  type : jsstring;
  text : jsstring
}.

Record CallToolResult := {
  content : list TextContent
}.

Definition text_result (t : jsstring) : CallToolResult :=
  {| content := [ {| type := str "text"; text := t |} ] |}.

(** Module-level constants read from the environment at start-up.
    [JIRA_AUTH] and [basicAuth] are the base64 strings computed there. *)
Record Env := {
  JIRA_DOMAIN : jsstring;
  JIRA_AUTH : jsstring;
  SN_INSTANCE : jsstring;
  basicAuth : jsstring
}.

(** ** The joke tools *)

Module Chuck.
(** The body of [api.chucknorris.io/jokes/random]. *)
Record Data := { value : jsstring }.
End Chuck.

Module Dad.
(** The body of [icanhazdadjoke.com]. *)
Record Data := { joke : jsstring }.
End Dad.

Module YoMomma.
(** The body of [yomama-jokes.com/api/v1/jokes/random/]. *)
Record Data := { category : jsstring; joke : jsstring }.
End YoMomma.

Definition getChuckJoke : Async Chuck.Data CallToolResult :=
  response <- await fetch (str "https://api.chucknorris.io/jokes/random") [] ;;
  data <- await response_json response ;;
  ret (text_result (Chuck.value data)).

Definition getChuckJokeByCategory (category : jsstring)
  : Async Chuck.Data CallToolResult :=
  response <- await
    fetch (str "https://api.chucknorris.io/jokes/random?category=" ++ category)
          [] ;;
  data <- await response_json response ;;
  ret (text_result (Chuck.value data)).

Definition getChuckCategories : Async (list jsstring) CallToolResult :=
  response <- await
    fetch (str "https://api.chucknorris.io/jokes/categories") [] ;;
  data <- await response_json response ;;
  ret (text_result (join (str ", ") data)).

Definition getDadJoke : Async Dad.Data CallToolResult :=
  response <- await
    fetch (str "https://icanhazdadjoke.com/")
          [(str "Accept", str "application/json")] ;;
  data <- await response_json response ;;
  ret (text_result (Dad.joke data)).

Definition getYoMommaJoke : Async YoMomma.Data CallToolResult :=
  response <- await
    fetch (str "https://www.yomama-jokes.com/api/v1/jokes/random/")
          [(str "accept", str "application/json")] ;;
  if negb (Http.ok response)
  then throw (Error (str "Failed to fetch Yo Momma joke"))
  else
    data <- await response_json response ;;
    ret (text_result
           (str "Category: " ++ YoMomma.category data ++ [10%N] ++
            str "Joke: " ++ YoMomma.joke data)).

(** ** The Jira tool *)

Module JiraTool.
(** The destructured argument of the handler, typed by the schema:
    [project] is [z.string()], the five filters are
    [z.string().optional()], [limit] is [z.number().optional()], a
    number as it comes out of the JSON of the call. *)
Record Args := {
  project : jsstring;
  status : option jsstring;
  summary : option jsstring;
  label : option jsstring;
  assignee : option jsstring;
  issueType : option jsstring;
  limit : option number
}.
End JiraTool.

Module JiraApi.
(** The part of the body of [/rest/api/3/search] that the handler reads:
    [data.issues], and of each issue [i.key], [i.fields.summary] and
    [i.fields.status.name]. *)
Record Status := { name : jsstring }.
Record Fields := { summary : jsstring; status : Status }.
Record Issue := { key : jsstring; fields : Fields }.
Record Data := { issues : list Issue }.
End JiraApi.

Definition jqlParts (a : JiraTool.Args) : list jsstring :=
  let '(JiraTool.Build_Args project status summary label assignee issueType _)
    := a in
  let jqlParts := [] in
  let jqlParts := push jqlParts (str "project=" ++ project) in
  let jqlParts :=
    if truthy_opt status
    then push jqlParts (str "status=" ++ dquote ++ interp status ++ dquote)
    else jqlParts in
  let jqlParts :=
    if truthy_opt summary
    then push jqlParts (str "summary~" ++ dquote ++ interp summary ++ dquote)
    else jqlParts in
  let jqlParts :=
    if truthy_opt label
    then push jqlParts (str "labels=" ++ dquote ++ interp label ++ dquote)
    else jqlParts in
  let jqlParts :=
    if truthy_opt assignee
    then push jqlParts (str "assignee=" ++ dquote ++ interp assignee ++ dquote)
    else jqlParts in
  let jqlParts :=
    if truthy_opt issueType
    then push jqlParts
           (str "issuetype=" ++ dquote ++ interp issueType ++ dquote)
    else jqlParts in
  jqlParts.

Definition jql (a : JiraTool.Args) : jsstring :=
  join (str " AND ") (jqlParts a).

Definition maxResults (a : JiraTool.Args) : number :=
  nullish (JiraTool.limit a) five.

Definition jira_headers (env : Env) : list (jsstring * jsstring) :=
  [ (str "Accept", str "application/json");
    (str "Authorization", str "Basic " ++ JIRA_AUTH env);
    (str "User-Agent", str "mcp-jira-agent/1.0") ].

Definition jira_line (i : JiraApi.Issue) : jsstring :=
  str "#" ++ JiraApi.key i ++ str ": " ++
  JiraApi.summary (JiraApi.fields i) ++ str " [" ++
  JiraApi.name (JiraApi.status (JiraApi.fields i)) ++ str "]".

(** The template literal of [url], given the value of
    [encodeURIComponent(jql)]. *)
Definition jira_url (env : Env) (encoded : jsstring) (maxResults : number)
  : jsstring :=
  str "https://" ++ JIRA_DOMAIN env ++ str "/rest/api/3/search?jql=" ++
  encoded ++ str "&maxResults=" ++ Number_toString maxResults.

Definition getJiraIssues (env : Env) (a : JiraTool.Args)
  : Async JiraApi.Data CallToolResult :=
  let jql := jql a in
  let maxResults := maxResults a in
  encoded <- await encodeURI_ jql ;;
  let url := jira_url env encoded maxResults in
  response <- await fetch url (jira_headers env) ;;
  if negb (Http.ok response)
  then
    body <- await response_text response ;;
    throw (Error (str "Jira error: " ++ body))
  else
    data <- await response_json response ;;
    let issues := join [10%N] (map jira_line (JiraApi.issues data)) in
    ret (text_result (or_else issues (str "No matching issues found."))).

(** ** The ServiceNow tool *)

Module SnTool.
(** [params], typed by the schema: four [z.string().optional()] filters
    and [limit], a [z.number().optional()]. *)
Record Params := {
  assigned_to : option jsstring;
  state : option jsstring;
  priority : option jsstring;
  short_description : option jsstring;
  limit : option number
}.
End SnTool.

Module SnApi.
(** The part of the body of [/api/now/table/incident] that the handler
    reads: [data.result], and of each incident [i.number] and
    [i.short_description]. *)
Record Incident := { number : jsstring; short_description : jsstring }.
Record Data := { result : list Incident }.
End SnApi.

(** [if (params.f?.trim()) queryParts.push(`<op>${params.f.trim()}`)]:
    [undefined?.trim()] is [undefined], which is falsy. *)
Definition push_trimmed (queryParts : list jsstring) (op : jsstring)
  (f : option jsstring) : list jsstring :=
  match f with
  | Some s =>
      if truthy (trim s) then push queryParts (op ++ trim s) else queryParts
  | None => queryParts
  end.

Definition queryParts (params : SnTool.Params) : list jsstring :=
  let queryParts := [] in
  let queryParts :=
    push_trimmed queryParts (str "assigned_to=") (SnTool.assigned_to params) in
  let queryParts :=
    push_trimmed queryParts (str "state=") (SnTool.state params) in
  let queryParts :=
    push_trimmed queryParts (str "priority=") (SnTool.priority params) in
  let queryParts :=
    push_trimmed queryParts (str "short_descriptionLIKE")
      (SnTool.short_description params) in
  queryParts.

Definition sysparm_query (params : SnTool.Params) : jsstring :=
  join (str "^") (queryParts params).

Definition sysparm_limit (params : SnTool.Params) : number :=
  nullish (SnTool.limit params) five.

Definition sn_headers (env : Env) : list (jsstring * jsstring) :=
  [ (str "Accept", str "application/json");
    (str "Authorization", str "Basic " ++ basicAuth env);
    (str "User-Agent", str "Mozilla/5.0") ].

Definition incident_line (i : SnApi.Incident) : jsstring :=
  str "#" ++ SnApi.number i ++ str ": " ++ SnApi.short_description i.

(** The template literal of [url], given the value of
    [encodeURIComponent(sysparm_query)]. *)
Definition sn_url (env : Env) (sysparm_limit : number) (encoded : jsstring)
  : jsstring :=
  str "https://" ++ SN_INSTANCE env ++
  str ".service-now.com/api/now/table/incident?sysparm_limit=" ++
  Number_toString sysparm_limit ++ str "&sysparm_query=" ++ encoded.

Definition getServiceNowIncidents (env : Env) (params : SnTool.Params)
  : Async SnApi.Data CallToolResult :=
  let sysparm_query := sysparm_query params in
  let sysparm_limit := sysparm_limit params in
  encoded <- await encodeURI_ sysparm_query ;;
  let url := sn_url env sysparm_limit encoded in
  response <- await fetch url (sn_headers env) ;;
  if negb (Http.ok response)
  then
    body <- await response_text response ;;
    throw (Error (str "ServiceNow error: " ++ body))
  else
    data <- await response_json response ;;
    let incidents := join [10%N] (map incident_line (SnApi.result data)) in
    ret (text_result (or_else incidents (str "No incidents found."))).

(** ** Argument schemas

    [server.tool(name, description, schema, handler)] checks the arguments of
    a call against the schema and calls the handler with the parsed object;
    a call whose arguments fail the schema is answered with an
    invalid-parameters error and the handler is not called. *)

Module Zod.

(** A JSON argument value.  [VOther] stands for [null], booleans, arrays
    and objects; a number is the finite double its JSON literal denotes. *)
Inductive value :=
| VString (s : jsstring)
| VNumber (n : number)
| VOther.

(** [z.string()] at a key: the key must hold a string. *)
Definition string_ (v : option value) : option jsstring :=
  match v with
  | Some (VString s) => Some s
  | _ => None
  end.

(** [z.string().optional()]: a string, or the key is absent. *)
Definition string_optional (v : option value) : option (option jsstring) :=
  match v with
  | None => Some None
  | Some (VString s) => Some (Some s)
  | Some _ => None
  end.

(** [z.number().optional()]: a number, or the key is absent. *)
Definition number_optional (v : option value) : option (option number) :=
  match v with
  | None => Some None
  | Some (VNumber n) => Some (Some n)
  | Some _ => None
  end.

End Zod.

Module JiraSchema.
(** The arguments of a [get-jira-issues] call as they arrive: what each key
    of the schema holds, [None] for a key that is absent. *)
Record Raw := {
  project : option Zod.value;
  status : option Zod.value;
  summary : option Zod.value;
  label : option Zod.value;
  assignee : option Zod.value;
  issueType : option Zod.value;
  limit : option Zod.value
}.

Definition parse (raw : Raw) : option JiraTool.Args :=
  match Zod.string_ (project raw),
        Zod.string_optional (status raw),
        Zod.string_optional (summary raw),
        Zod.string_optional (label raw),
        Zod.string_optional (assignee raw),
        Zod.string_optional (issueType raw),
        Zod.number_optional (limit raw) with
  | Some p, Some st, Some su, Some la, Some a, Some it, Some li =>
      Some (JiraTool.Build_Args p st su la a it li)
  | _, _, _, _, _, _, _ => None
  end.
End JiraSchema.

Module SnSchema.
Record Raw := {
  assigned_to : option Zod.value;
  state : option Zod.value;
  priority : option Zod.value;
  short_description : option Zod.value;
  limit : option Zod.value
}.

Definition parse (raw : Raw) : option SnTool.Params :=
  match Zod.string_optional (assigned_to raw),
        Zod.string_optional (state raw),
        Zod.string_optional (priority raw),
        Zod.string_optional (short_description raw),
        Zod.number_optional (limit raw) with
  | Some a, Some st, Some p, Some sd, Some li =>
      Some (SnTool.Build_Params a st p sd li)
  | _, _, _, _, _ => None
  end.
End SnSchema.

(** How a tool call ends: the arguments fail the schema, or the handler ran
    and settled. *)
Inductive CallOutcome :=
| InvalidParams
| Handled (s : Settled CallToolResult).

(** A call of a registered tool: schema first, then the handler. *)
Definition tool_call {Raw Args Data : Type} (parse : Raw -> option Args)
  (handler : Args -> Async Data CallToolResult) (raw : Raw)
  (net : Http.Network Data) : CallOutcome * list Http.Request :=
  match parse raw with
  | None => (InvalidParams, [])
  | Some args =>
      let '(s, log) := run (handler args) net in (Handled s, log)
  end.

Definition call_getJiraIssues (env : Env) :=
  tool_call JiraSchema.parse (getJiraIssues env).

Definition call_getServiceNowIncidents (env : Env) :=
  tool_call SnSchema.parse (getServiceNowIncidents env).

(** ** Vocabulary of the properties *)

(** The clauses of a clause list that carry the operator [op]. *)
Definition clauses_of (op : jsstring) (parts : list jsstring)
  : list jsstring :=
  filter (fun clause => startsWith clause op) parts.

(** Present and non-blank after trimming. *)
Definition present_nonblank (f : option jsstring) : bool :=
  match f with
  | Some s => truthy (trim s)
  | None => false
  end.

(** The optional filters of the Jira tool, with the operator each one is
    written with. *)
Inductive jira_field := Status | Summary | Label | Assignee | IssueType.

Definition jira_value (f : jira_field) (a : JiraTool.Args)
  : option jsstring :=
  match f with
  | Status => JiraTool.status a
  | Summary => JiraTool.summary a
  | Label => JiraTool.label a
  | Assignee => JiraTool.assignee a
  | IssueType => JiraTool.issueType a
  end.

Definition jira_op (f : jira_field) : jsstring :=
  match f with
  | Status => str "status="
  | Summary => str "summary~"
  | Label => str "labels="
  | Assignee => str "assignee="
  | IssueType => str "issuetype="
  end ++ dquote.

(** The optional filters of the ServiceNow tool. *)
Inductive sn_field := AssignedTo | State | Priority | ShortDescription.

Definition sn_value (f : sn_field) (params : SnTool.Params)
  : option jsstring :=
  match f with
  | AssignedTo => SnTool.assigned_to params
  | State => SnTool.state params
  | Priority => SnTool.priority params
  | ShortDescription => SnTool.short_description params
  end.

Definition sn_op (f : sn_field) : jsstring :=
  match f with
  | AssignedTo => str "assigned_to="
  | State => str "state="
  | Priority => str "priority="
  | ShortDescription => str "short_descriptionLIKE"
  end.

(** The number of fields of a Jira argument object that are set: the
    project and each optional filter that is present. *)
Definition is_set (f : option jsstring) : nat :=
  match f with
  | Some _ => 1
  | None => 0
  end.

Definition fields_set (a : JiraTool.Args) : nat :=
  1 + is_set (JiraTool.status a) + is_set (JiraTool.summary a) +
  is_set (JiraTool.label a) + is_set (JiraTool.assignee a) +
  is_set (JiraTool.issueType a).

(** The requests the two ticket handlers send. *)
Definition jira_request (env : Env) (a : JiraTool.Args) (encoded : jsstring)
  : Http.Request :=
  {| Http.url := jira_url env encoded (nullish (JiraTool.limit a) five);
     Http.headers := jira_headers env |}.

Definition sn_request (env : Env) (params : SnTool.Params)
  (encoded : jsstring) : Http.Request :=
  {| Http.url := sn_url env (nullish (SnTool.limit params) five) encoded;
     Http.headers := sn_headers env |}.

Definition yo_momma_request : Http.Request :=
  {| Http.url := str "https://www.yomama-jokes.com/api/v1/jokes/random/";
     Http.headers := [(str "accept", str "application/json")] |}.

(** *** Sample inputs *)

Definition sample_env : Env :=
  {| JIRA_DOMAIN := str "acme.atlassian.net";
     JIRA_AUTH := str "amFuZUBhY21lLmlvOnNlY3JldA==";
     SN_INSTANCE := str "prod1";
     basicAuth := str "Ym9iOnNlY3JldA==" |}.

(** The numbers 0, 3, -1, 2.5 and 10^21. *)
Definition zero : number := {| float_of := 0; finite := eq_refl |}.

Definition three : number := {| float_of := 3; finite := eq_refl |}.

Definition minus_one : number := {| float_of := -1; finite := eq_refl |}.

Definition two_and_a_half : number :=
  {| float_of := 2.5; finite := eq_refl |}.

Definition ten_to_21 : number := {| float_of := 1e21; finite := eq_refl |}.

(** A network that answers every request with the same response. *)
Definition always {Data : Type} (response : Http.Response Data)
  : Http.Network Data :=
  fun _ => Some response.

Definition only_project (project : jsstring) (limit : option number)
  : JiraTool.Args :=
  {| JiraTool.project := project;
     JiraTool.status := None;
     JiraTool.summary := None;
     JiraTool.label := None;
     JiraTool.assignee := None;
     JiraTool.issueType := None;
     JiraTool.limit := limit |}.

Definition no_filters (limit : option number) : SnTool.Params :=
  {| SnTool.assigned_to := None;
     SnTool.state := None;
     SnTool.priority := None;
     SnTool.short_description := None;
     SnTool.limit := limit |}.

(** The arguments of a call that carry a given argument object. *)
Definition present_string (f : option jsstring) : option Zod.value :=
  option_map Zod.VString f.

Definition present_number (f : option number) : option Zod.value :=
  option_map Zod.VNumber f.

Definition jira_raw (a : JiraTool.Args) : JiraSchema.Raw :=
  {| JiraSchema.project := Some (Zod.VString (JiraTool.project a));
     JiraSchema.status := present_string (JiraTool.status a);
     JiraSchema.summary := present_string (JiraTool.summary a);
     JiraSchema.label := present_string (JiraTool.label a);
     JiraSchema.assignee := present_string (JiraTool.assignee a);
     JiraSchema.issueType := present_string (JiraTool.issueType a);
     JiraSchema.limit := present_number (JiraTool.limit a) |}.

Definition sn_raw (params : SnTool.Params) : SnSchema.Raw :=
  {| SnSchema.assigned_to := present_string (SnTool.assigned_to params);
     SnSchema.state := present_string (SnTool.state params);
     SnSchema.priority := present_string (SnTool.priority params);
     SnSchema.short_description :=
       present_string (SnTool.short_description params);
     SnSchema.limit := present_number (SnTool.limit params) |}.

(** A call that ends in a failure before anything was sent. *)
Definition rejected_before_network
  (outcome : CallOutcome * list Http.Request) : Prop :=
  snd outcome = []
  /\ (fst outcome = InvalidParams
      \/ exists e, fst outcome = Handled (Rejected e)).

(** A run that fails with an error whose message carries the body of the
    response. *)
Definition fails_with_body {Data : Type}
  (outcome : Settled CallToolResult * list Http.Request)
  (response : Http.Response Data) : Prop :=
  exists message,
    fst outcome = Rejected (Error message)
    /\ includes message (Http.text response) = true.

(** The text of a result with one text item. *)
Definition result_text (outcome : Settled CallToolResult) : option jsstring :=
  match outcome with
  | Fulfilled {| content := [item] |} => Some (text item)
  | _ => None
  end.

(** *** The properties as the specification words them, where the code
    departs from them *)

(** A filter that is absent or blank after trimming has no clause in the
    Jira query. *)
Definition jira_blank_filters_dropped (a : JiraTool.Args) : Prop :=
  forall f : jira_field,
    present_nonblank (jira_value f a) = false ->
    clauses_of (jira_op f) (jqlParts a) = [].

(** A limit of zero or below fails the call before any network call. *)
Definition jira_limit_validated (env : Env) (a : JiraTool.Args)
  (net : Http.Network JiraApi.Data) : Prop :=
  forall n : number,
    JiraTool.limit a = Some n -> PrimFloat.leb (float_of n) 0 = true ->
    rejected_before_network (call_getJiraIssues env (jira_raw a) net).

Definition sn_limit_validated (env : Env) (params : SnTool.Params)
  (net : Http.Network SnApi.Data) : Prop :=
  forall n : number,
    SnTool.limit params = Some n -> PrimFloat.leb (float_of n) 0 = true ->
    rejected_before_network
      (call_getServiceNowIncidents env (sn_raw params) net).

(** The priority argument never reaches the query. *)
Definition priority_never_in_query (params : SnTool.Params) : Prop :=
  clauses_of (str "priority=") (queryParts params) = [].

(** A call with a missing or empty project is rejected before anything is
    sent. *)
Definition scope_validated (env : Env) (raw : JiraSchema.Raw)
  (net : Http.Network JiraApi.Data) : Prop :=
  JiraSchema.project raw = None
  \/ JiraSchema.project raw = Some (Zod.VString []) ->
  rejected_before_network (call_getJiraIssues env raw net).

(** The text of the category-tagged joke is [category: text]. *)
Definition category_colon_text (data : YoMomma.Data) : jsstring :=
  YoMomma.category data ++ str ": " ++ YoMomma.joke data.

(** *** Further sample inputs *)

Definition blank_status_args : JiraTool.Args :=
  {| JiraTool.project := str "MCP";
     JiraTool.status := Some (str "   ");
     JiraTool.summary := None;
     JiraTool.label := None;
     JiraTool.assignee := None;
     JiraTool.issueType := None;
     JiraTool.limit := None |}.

Definition injected_status : jsstring :=
  str "Done" ++ dquote ++ str " AND assignee=" ++ dquote ++ str "admin".

Definition injected_status_args : JiraTool.Args :=
  {| JiraTool.project := str "MCP";
     JiraTool.status := Some injected_status;
     JiraTool.summary := None;
     JiraTool.label := None;
     JiraTool.assignee := None;
     JiraTool.issueType := None;
     JiraTool.limit := None |}.

Definition priority_args : SnTool.Params :=
  {| SnTool.assigned_to := None;
     SnTool.state := None;
     SnTool.priority := Some (str "1");
     SnTool.short_description := None;
     SnTool.limit := None |}.

Definition bob_disk_full (limit : option number) : SnTool.Params :=
  {| SnTool.assigned_to := Some (str "bob");
     SnTool.state := None;
     SnTool.priority := None;
     SnTool.short_description := Some (str "disk full");
     SnTool.limit := limit |}.

Definition empty_project_raw : JiraSchema.Raw :=
  {| JiraSchema.project := Some (Zod.VString []);
     JiraSchema.status := None;
     JiraSchema.summary := None;
     JiraSchema.label := None;
     JiraSchema.assignee := None;
     JiraSchema.issueType := None;
     JiraSchema.limit := None |}.

Definition no_issues : Http.Response JiraApi.Data :=
  {| Http.status := 200;
     Http.text := str "{" ++ dquote ++ str "issues" ++ dquote ++ str ":[]}";
     Http.json := Some {| JiraApi.issues := [] |} |}.

Definition no_incidents : Http.Response SnApi.Data :=
  {| Http.status := 200;
     Http.text := str "{" ++ dquote ++ str "result" ++ dquote ++ str ":[]}";
     Http.json := Some {| SnApi.result := [] |} |}.

Definition two_issues_data : JiraApi.Data :=
  {| JiraApi.issues :=
       [ {| JiraApi.key := str "MCP-1";
            JiraApi.fields :=
              {| JiraApi.summary := str "Fix login";
                 JiraApi.status := {| JiraApi.name := str "Done" |} |} |};
         {| JiraApi.key := str "MCP-2";
            JiraApi.fields :=
              {| JiraApi.summary := str "Add logout";
                 JiraApi.status := {| JiraApi.name := str "To Do" |} |} |} ]
  |}.

Definition two_issues : Http.Response JiraApi.Data :=
  {| Http.status := 200;
     Http.text := str "(two issues)";
     Http.json := Some two_issues_data |}.

Definition unauthorized {Data : Type} : Http.Response Data :=
  {| Http.status := 401;
     Http.text := str "Client must be authenticated to access this resource.";
     Http.json := None |}.

Definition yo_momma_joke : YoMomma.Data :=
  {| YoMomma.category := str "fat";
     YoMomma.joke := str "Yo momma is so fat, her shadow weighs a ton." |}.

Definition yo_momma_ok : Http.Response YoMomma.Data :=
  {| Http.status := 200;
     Http.text := str "(a joke)";
     Http.json := Some yo_momma_joke |}.

(** The requests of the joke tools that return a joke. *)
Definition chuck_request : Http.Request :=
  {| Http.url := str "https://api.chucknorris.io/jokes/random";
     Http.headers := [] |}.

Definition chuck_category_request (category : jsstring) : Http.Request :=
  {| Http.url :=
       str "https://api.chucknorris.io/jokes/random?category=" ++ category;
     Http.headers := [] |}.

Definition dad_request : Http.Request :=
  {| Http.url := str "https://icanhazdadjoke.com/";
     Http.headers := [(str "Accept", str "application/json")] |}.

(** A response of status 500 whose body is the JSON text of an object with
    a [value]. *)
Definition chuck_failure : Http.Response Chuck.Data :=
  {| Http.status := 500;
     Http.text :=
       str "{" ++ dquote ++ str "value" ++ dquote ++ str ":" ++ dquote ++
       str "boom" ++ dquote ++ str "}";
     Http.json := Some {| Chuck.value := str "boom" |} |}.

Definition missing_project_raw : JiraSchema.Raw :=
  {| JiraSchema.project := None;
     JiraSchema.status := Some (Zod.VString (str "Done"));
     JiraSchema.summary := None;
     JiraSchema.label := None;
     JiraSchema.assignee := None;
     JiraSchema.issueType := None;
     JiraSchema.limit := None |}.

Definition jane_done_args : JiraTool.Args :=
  {| JiraTool.project := str "MCP";
     JiraTool.status := Some (str "Done");
     JiraTool.summary := None;
     JiraTool.label := None;
     JiraTool.assignee := Some (str "jane");
     JiraTool.issueType := None;
     JiraTool.limit := Some three |}.

Definition two_incidents_data : SnApi.Data :=
  {| SnApi.result :=
       [ {| SnApi.number := str "INC0010001";
            SnApi.short_description := str "disk full" |};
         {| SnApi.number := str "INC0010002";
            SnApi.short_description := str "mail down" |} ] |}.

Definition chuck_joke : Chuck.Data :=
  {| Chuck.value := str "Chuck Norris can divide by zero." |}.

Definition chuck_ok : Http.Response Chuck.Data :=
  {| Http.status := 200;
     Http.text := str "(a joke)";
     Http.json := Some chuck_joke |}.

Definition dad_joke : Dad.Data :=
  {| Dad.joke := str "I used to hate facial hair, but then it grew on me." |}.

Definition two_incidents : Http.Response SnApi.Data :=
  {| Http.status := 200;
     Http.text := str "(two incidents)";
     Http.json := Some two_incidents_data |}.

Definition dad_ok : Http.Response Dad.Data :=
  {| Http.status := 200;
     Http.text := str "(a joke)";
     Http.json := Some dad_joke |}.

(** ** Start-up: the constants computed from the environment *)

Module Node.

(** The octets [Buffer.from(s)] holds: the UTF-8 encoding of [s], with
    U+FFFD (EF BF BD) for a surrogate without its partner. *)
Definition replacement : list N := [239; 191; 189]%N.

Fixpoint utf8_bytes (s : jsstring) : list N :=
  match s with
  | [] => []
  | c :: rest =>
      if is_high_surrogate c then
        match rest with
        | d :: rest' =>
            if is_low_surrogate d
            then utf8 ((c - 55296) * 1024 + (d - 56320) + 65536)%N ++
                 utf8_bytes rest'
            else replacement ++ utf8_bytes rest
        | [] => replacement
        end
      else if is_low_surrogate c then replacement ++ utf8_bytes rest
      else utf8 c ++ utf8_bytes rest
  end.

(** The base64 digit of a number below 64: [A-Z], [a-z], [0-9], [+], [/]. *)
Definition b64 (n : N) : code_unit :=
  (if n <? 26 then 65 + n
   else if n <? 52 then 71 + n
   else if n <? 62 then n - 4
   else if n =? 62 then 43
   else 47)%N.

(** [buffer.toString("base64")]: four digits for three octets, padded with
    [=] at the end. *)
Fixpoint base64 (bytes : list N) : jsstring :=
  match bytes with
  | [] => []
  | [a] => [b64 (a / 4); b64 ((a mod 4) * 16); 61; 61]
  | [a; b] =>
      [b64 (a / 4); b64 ((a mod 4) * 16 + b / 16); b64 ((b mod 16) * 4); 61]
  | a :: b :: c :: rest =>
      [b64 (a / 4); b64 ((a mod 4) * 16 + b / 16);
       b64 ((b mod 16) * 4 + c / 64); b64 (c mod 64)] ++ base64 rest
  end%N.

End Node.

Module ProcessEnv.
(** [process.env] after [dotenv.config()]: each variable is a string or
    [undefined]. *)
Record t := {
  JIRA_DOMAIN : option jsstring;
  JIRA_EMAIL : option jsstring;
  JIRA_API_TOKEN : option jsstring;
  SN_INSTANCE : option jsstring;
  SN_USERNAME : option jsstring;
  SN_PASSWORD : option jsstring
}.
End ProcessEnv.

(** The module-level constants.  [JIRA_DOMAIN] and [SN_INSTANCE] are only
    ever interpolated into the URL, so the record holds the text the
    template literal gives them; the two credentials are
    [Buffer.from(`${user}:${secret}`).toString("base64")]. *)
Definition load_env (penv : ProcessEnv.t) : Env :=
  {| JIRA_DOMAIN := interp (ProcessEnv.JIRA_DOMAIN penv);
     JIRA_AUTH :=
       Node.base64
         (Node.utf8_bytes
            (interp (ProcessEnv.JIRA_EMAIL penv) ++ str ":" ++
             interp (ProcessEnv.JIRA_API_TOKEN penv)));
     SN_INSTANCE := interp (ProcessEnv.SN_INSTANCE penv);
     basicAuth :=
       Node.base64
         (Node.utf8_bytes
            (interp (ProcessEnv.SN_USERNAME penv) ++ str ":" ++
             interp (ProcessEnv.SN_PASSWORD penv))) |}.

(** ** The HTTP endpoint *)

Module Express.

(** What a response can carry: the JSON-RPC error object
    [{ jsonrpc: "2.0", error: { code, message }, id: null }] of the route
    handlers, or whatever the transport wrote. *)
Inductive Body :=
| JsonRpcError (code : Z) (message : jsstring)
| Written (raw : jsstring).

(** The part of [res] the route handlers touch. *)
Record Res := {
  statusCode : N;
  headersSent : bool;
  body : option Body
}.

(** [res.status(code)]. *)
Definition status (code : N) (res : Res) : Res :=
  {| statusCode := code; headersSent := headersSent res; body := body res |}.

(** [res.json(obj)]: writes head and body; [None] is the error Node throws
    when the head was sent before. *)
Definition json (obj : Body) (res : Res) : option Res :=
  if headersSent res then None
  else Some {| statusCode := statusCode res;
               headersSent := true;
               body := Some obj |}.

(** [transport.handleRequest(req, res, req.body)]: what it leaves of [res],
    and whether it threw. *)
Definition Transport (Req : Type) := Req -> Res -> bool * Res.

(** How a route handler ends: [true] when an error escapes it. *)
Definition Ended := (bool * Res)%type.

(** [app.post("/mcp", ...)]; the two console lines are left out. *)
Definition post_mcp {Req : Type} (transport : Transport Req) (req : Req)
  (res : Res) : Ended :=
  match transport req res with
  | (false, res') => (false, res')
  | (true, res') =>
      if negb (headersSent res') then
        match json (JsonRpcError (-32603) (str "Internal server error"))
                (status 500 res') with
        | Some res'' => (false, res'')
        | None => (true, res')
        end
      else (false, res')
  end.

(** [app.get("/mcp", ...)] and [app.delete("/mcp", ...)], the same body. *)
Definition method_not_allowed (res : Res) : Ended :=
  match json (JsonRpcError (-32000) (str "Method not allowed."))
          (status 405 res) with
  | Some res' => (false, res')
  | None => (true, res)
  end.

Definition get_mcp {Req : Type} (_req : Req) (res : Res) : Ended :=
  method_not_allowed res.

Definition delete_mcp {Req : Type} (_req : Req) (res : Res) : Ended :=
  method_not_allowed res.

End Express.

(** ** Further vocabulary *)

(** A string that does not start with white space. *)
Definition head_ok (s : jsstring) : bool :=
  match s with
  | [] => true
  | c :: _ => negb (is_white_space c)
  end.

(** [String.prototype.isWellFormed]: no surrogate without its partner. *)
Fixpoint isWellFormed (s : jsstring) : bool :=
  match s with
  | [] => true
  | c :: rest =>
      if is_low_surrogate c then false
      else if is_high_surrogate c then
        match rest with
        | d :: rest' => is_low_surrogate d && isWellFormed rest'
        | [] => false
        end
      else isWellFormed rest
  end.

(** Every element is a code unit. *)
Definition code_units (s : jsstring) : Prop :=
  Forall (fun c => (c < 65536)%N) s.

(** The code units an encoded component is made of: the unreserved ones and
    the percent sign. *)
Definition url_safe (c : code_unit) : bool :=
  is_unreserved c || (c =? 37)%N.

(** Delimiters of a URL and of the two query languages:
    [&], [=], [#], [?], [/], space, double quote and caret. *)
Definition delimiters : list code_unit := [38; 61; 35; 63; 47; 32; 34; 94]%N.

(** The value of a base64 digit. *)
Definition unb64 (c : code_unit) : option N :=
  (if (65 <=? c) && (c <=? 90) then Some (c - 65)
   else if (97 <=? c) && (c <=? 122) then Some (c - 71)
   else if (48 <=? c) && (c <=? 57) then Some (c + 4)
   else if c =? 43 then Some 62
   else if c =? 47 then Some 63
   else None)%N.

(** Base64 decoding, what the receiving server does with the credential. *)
Fixpoint unbase64 (s : jsstring) : option (list N) :=
  match s with
  | [] => Some []
  | i :: j :: k :: l :: rest =>
      match unb64 i, unb64 j with
      | Some i, Some j =>
          if (l =? 61)%N then
            match rest with
            | [] =>
                if (k =? 61)%N then Some [i * 4 + j / 16]%N
                else
                  match unb64 k with
                  | Some k => Some [i * 4 + j / 16; (j mod 16) * 16 + k / 4]%N
                  | None => None
                  end
            | _ :: _ => None
            end
          else
            match unb64 k, unb64 l, unbase64 rest with
            | Some k, Some l, Some bytes =>
                Some ([i * 4 + j / 16; (j mod 16) * 16 + k / 4;
                       (k mod 4) * 64 + l]%N ++ bytes)
            | _, _, _ => None
            end
      | _, _ => None
      end
  | _ => None
  end.

(** How often a code unit occurs in a string. *)
Definition count (c : code_unit) (s : jsstring) : nat :=
  List.length (filter (N.eqb c) s).

(** The clause a filter of the ServiceNow tool contributes. *)
Definition sn_clause (params : SnTool.Params) (f : sn_field)
  : list jsstring :=
  match sn_value f params with
  | Some s => if truthy (trim s) then [sn_op f ++ trim s] else []
  | None => []
  end.

(** The clause a filter of the Jira tool contributes. *)
Definition jira_clause (a : JiraTool.Args) (f : jira_field)
  : list jsstring :=
  match jira_value f a with
  | Some v => if truthy v then [jira_op f ++ v ++ dquote] else []
  | None => []
  end.

(** White space put around every filter value. *)
Definition pad (l r : jsstring) (f : option jsstring) : option jsstring :=
  option_map (fun s => l ++ s ++ r) f.

Definition pad_params (l r : jsstring) (params : SnTool.Params)
  : SnTool.Params :=
  {| SnTool.assigned_to := pad l r (SnTool.assigned_to params);
     SnTool.state := pad l r (SnTool.state params);
     SnTool.priority := pad l r (SnTool.priority params);
     SnTool.short_description := pad l r (SnTool.short_description params);
     SnTool.limit := SnTool.limit params |}.

Definition categories_request : Http.Request :=
  {| Http.url := str "https://api.chucknorris.io/jokes/categories";
     Http.headers := [] |}.

(** The requests a request log holds carry no [Authorization] header. *)
Definition no_credentials (log : list Http.Request) : Prop :=
  forall request name value,
    In request log -> In (name, value) (Http.headers request) ->
    name <> str "Authorization".

(** *** Sample inputs, continued *)

Definition lone_surrogate_args : JiraTool.Args :=
  only_project (str "MCP" ++ [55357%N]) None.

Definition lone_surrogate_params : SnTool.Params :=
  {| SnTool.assigned_to := Some [56832%N];
     SnTool.state := None;
     SnTool.priority := None;
     SnTool.short_description := None;
     SnTool.limit := None |}.

Definition empty_process_env : ProcessEnv.t :=
  {| ProcessEnv.JIRA_DOMAIN := None;
     ProcessEnv.JIRA_EMAIL := None;
     ProcessEnv.JIRA_API_TOKEN := None;
     ProcessEnv.SN_INSTANCE := None;
     ProcessEnv.SN_USERNAME := None;
     ProcessEnv.SN_PASSWORD := None |}.

Definition sample_process_env : ProcessEnv.t :=
  {| ProcessEnv.JIRA_DOMAIN := Some (str "acme.atlassian.net");
     ProcessEnv.JIRA_EMAIL := Some (str "jane@acme.io");
     ProcessEnv.JIRA_API_TOKEN := Some (str "secret");
     ProcessEnv.SN_INSTANCE := Some (str "prod1");
     ProcessEnv.SN_USERNAME := Some (str "bob");
     ProcessEnv.SN_PASSWORD := Some (str "secret") |}.

Definition fresh_res : Express.Res :=
  {| Express.statusCode := 200;
     Express.headersSent := false;
     Express.body := None |}.

(** A transport that throws before it has written anything. *)
Definition failing_transport : Express.Transport unit :=
  fun _ res => (true, res).

(** A transport that throws after it has sent its answer. *)
Definition late_failing_transport : Express.Transport unit :=
  fun _ res =>
    (true,
     {| Express.statusCode := 200;
        Express.headersSent := true;
        Express.body := Some (Express.Written (str "event: message")) |}).

Definition padded_bob : SnTool.Params :=
  {| SnTool.assigned_to := Some ([32; 9]%N ++ str "bob" ++ [10%N]);
     SnTool.state := None;
     SnTool.priority := None;
     SnTool.short_description := Some ([160%N] ++ str "disk full");
     SnTool.limit := None |}.

Definition caret_params : SnTool.Params :=
  {| SnTool.assigned_to := None;
     SnTool.state := Some (str "1^priority=1");
     SnTool.priority := None;
     SnTool.short_description := None;
     SnTool.limit := None |}.

(** A handler that lets the failures of its one request through: when the
    request fails it rejects with the TypeError of [fetch], and when the
    answer is not JSON (and is a success, for a handler that checks the
    status first) with the SyntaxError of [response.json()]; in both cases
    it has sent that request and nothing else. *)
Definition fails_uncaught {Data : Type} (handler : Async Data CallToolResult)
  (request : Http.Request) (checks_status : bool) : Prop :=
  forall net : Http.Network Data,
    (net request = None ->
     run handler net = (Rejected TypeError, [request]))
    /\ (forall response,
           net request = Some response ->
           (checks_status = true -> Http.ok response = true) ->
           Http.json response = None ->
           run handler net = (Rejected SyntaxError, [request])).

(** A network on which every request fails. *)
Definition unreachable {Data : Type} : Http.Network Data :=
  fun _ => None.

(** A successful answer whose body is not JSON. *)
Definition html_page {Data : Type} : Http.Response Data :=
  {| Http.status := 200;
     Http.text := str "<html>Service temporarily unavailable</html>";
     Http.json := None |}.

(** The clause the priority filter contributes to the ServiceNow query. *)
Definition priority_clause (params : SnTool.Params) : list jsstring :=
  match SnTool.priority params with
  | Some s => if truthy (trim s) then [str "priority=" ++ trim s] else []
  | None => []
  end.

Definition priority_between : SnTool.Params :=
  {| SnTool.assigned_to := None;
     SnTool.state := Some (str "2");
     SnTool.priority := Some (str " 1 ");
     SnTool.short_description := Some (str "disk");
     SnTool.limit := None |}.

(** * Properties *)

(** ** The primitives on sample strings *)

Example trim_sample :
  trim ([32; 9; 160] ++ str "disk full" ++ [10; 8195; 32])%N = str "disk full"
  /\ trim [32; 32; 32]%N = [].
Proof. split; reflexivity. Qed.

Example join_sample :
  join (str "^") [str "a"; str "b"; str "c"] = str "a^b^c"
  /\ join (str "^") [str "a"] = str "a"
  /\ join (str "^") [] = [].
Proof. repeat split; reflexivity. Qed.

Example split_sample :
  split (str " AND AND x AND y") (str " AND ") = [[]; str "AND x"; str "y"].
Proof. reflexivity. Qed.

Example encodeURIComponent_sample :
  encodeURIComponent
    (str "project=MCP AND status=" ++ [34; 233; 34; 55357; 56832])%N
  = Some (str "project%3DMCP%20AND%20status%3D%22%C3%A9%22%F0%9F%98%80")
  /\ encodeURIComponent [55357%N] = None
  /\ encodeURIComponent (str "disk full^a-b_c.d!e~f*g'h(i)")
     = Some (str "disk%20full%5Ea-b_c.d!e~f*g'h(i)").
Proof. repeat split; reflexivity. Qed.

Example Number_toString_sample :
  Number_toString five = str "5"
  /\ Number_toString three = str "3"
  /\ Number_toString zero = str "0"
  /\ Number_toString minus_one = str "-1"
  /\ Number_toString two_and_a_half = str "2.5"
  /\ Number_toString ten_to_21 = str "1e+21"
  /\ float_toString 100000000000000000000 = str "100000000000000000000"
  /\ float_toString 9007199254740992 = str "9007199254740992"
  /\ float_toString 0.5 = str "0.5"
  /\ float_toString 0x1.0c6f7a0b5ed8dp-20 = str "0.000001"
  /\ float_toString 0x1p-20 = str "9.5367431640625e-7"
  /\ float_toString 0x1.999999999999ap-4 = str "0.1"
  /\ float_toString (-0) = str "0"
  /\ float_toString infinity = str "Infinity"
  /\ float_toString nan = str "NaN".
Proof. repeat split; vm_compute; reflexivity. Qed.

(** The scenario of the specification: project MCP, status Done, assignee
    jane, limit 3. *)
Example jane_done_sample :
  jql jane_done_args
  = str "project=MCP AND status=" ++ dquote ++ str "Done" ++ dquote ++
    str " AND assignee=" ++ dquote ++ str "jane" ++ dquote
  /\ snd (run (getJiraIssues sample_env jane_done_args) (always no_issues))
     = [ {| Http.url :=
              str "https://acme.atlassian.net/rest/api/3/search?jql=project%3DMCP%20AND%20status%3D%22Done%22%20AND%20assignee%3D%22jane%22&maxResults=3";
            Http.headers :=
              [ (str "Accept", str "application/json");
                (str "Authorization",
                 str "Basic amFuZUBhY21lLmlvOnNlY3JldA==");
                (str "User-Agent", str "mcp-jira-agent/1.0") ] |} ].
Proof. split; reflexivity. Qed.

Example bob_disk_full_sample :
  run (getServiceNowIncidents sample_env (bob_disk_full None))
    (always two_incidents)
  = (Fulfilled
       (text_result
          (str "#INC0010001: disk full" ++ [10%N] ++
           str "#INC0010002: mail down")),
     [ {| Http.url :=
            str "https://prod1.service-now.com/api/now/table/incident?sysparm_limit=5&sysparm_query=assigned_to%3Dbob%5Eshort_descriptionLIKEdisk%20full";
          Http.headers :=
            [ (str "Accept", str "application/json");
              (str "Authorization", str "Basic Ym9iOnNlY3JldA==");
              (str "User-Agent", str "Mozilla/5.0") ] |} ]).
Proof. reflexivity. Qed.

Example getChuckCategories_sample :
  run getChuckCategories
    (always {| Http.status := 200;
               Http.text := str "(categories)";
               Http.json := Some [str "animal"; str "career"; str "dev"] |})
  = (Fulfilled (text_result (str "animal, career, dev")),
     [ {| Http.url := str "https://api.chucknorris.io/jokes/categories";
          Http.headers := [] |} ]).
Proof. reflexivity. Qed.

(** ** Strings and clause lists *)

Lemma startsWith_app (p s : jsstring) : startsWith (p ++ s) p = true.
Proof.
  induction p as [|c p IH]; simpl; [reflexivity|].
  now rewrite N.eqb_refl, IH.
Qed.

Lemma clauses_of_push (op : jsstring) (parts : list jsstring) (x : jsstring) :
  clauses_of op (push parts x)
  = clauses_of op parts ++ (if startsWith x op then [x] else []).
Proof.
  unfold clauses_of, push. rewrite filter_app. reflexivity.
Qed.

(** Each optional filter of the Jira tool that is a non-empty string has its
    one clause, its value between double quotes as it came; the others have
    none. *)
Lemma jqlParts_clauses (a : JiraTool.Args) (f : jira_field) :
  clauses_of (jira_op f) (jqlParts a)
  = match jira_value f a with
    | Some v => if truthy v then [jira_op f ++ v ++ dquote] else []
    | None => []
    end.
Proof.
  destruct a as [p st su la asg it li].
  destruct f;
    destruct st as [[|? ?]|], su as [[|? ?]|], la as [[|? ?]|],
             asg as [[|? ?]|], it as [[|? ?]|];
    vm_compute; reflexivity.
Qed.

(** Each optional filter of the ServiceNow tool that is non-blank after
    trimming has its one clause, carrying the trimmed value; the others have
    none. *)
Lemma queryParts_clauses (params : SnTool.Params) (f : sn_field) :
  clauses_of (sn_op f) (queryParts params)
  = match sn_value f params with
    | Some s => if truthy (trim s) then [sn_op f ++ trim s] else []
    | None => []
    end.
Proof.
  destruct params as [a st pr sd li].
  destruct f;
    cbv [queryParts push_trimmed sn_value sn_op SnTool.assigned_to
         SnTool.state SnTool.priority SnTool.short_description];
    destruct a as [a|], st as [st|], pr as [pr|], sd as [sd|];
    repeat match goal with
           | |- context [trim ?x] => destruct (trim x)
           end;
    vm_compute; reflexivity.
Qed.

(** The clause list of the Jira tool starts with the project clause, which is
    the only clause with that operator. *)
Lemma jqlParts_project (a : JiraTool.Args) :
  exists rest,
    jqlParts a = (str "project=" ++ JiraTool.project a) :: rest
    /\ clauses_of (str "project=") rest = [].
Proof.
  destruct a as [p st su la asg it li].
  destruct st as [[|? ?]|], su as [[|? ?]|], la as [[|? ?]|],
           asg as [[|? ?]|], it as [[|? ?]|];
    eexists; (split; [vm_compute; reflexivity | vm_compute; reflexivity]).
Qed.

(** ** One run of a ticket handler *)

Lemma or_else_nonempty (a b : jsstring) :
  b <> [] -> or_else a b <> [].
Proof.
  intros Hb. unfold or_else. destruct a; simpl; [assumption | discriminate].
Qed.

Lemma join_cons_nonempty (sep x : jsstring) (rest : list jsstring) :
  x <> [] -> join sep (x :: rest) <> [].
Proof.
  intros Hx. destruct x as [|c x]; [contradiction|].
  destruct rest; simpl; discriminate.
Qed.

(** What [getJiraIssues] does once the query is encoded: one request, and
    the result read off the response. *)
Lemma run_getJiraIssues (env : Env) (a : JiraTool.Args)
  (net : Http.Network JiraApi.Data) (e : jsstring) :
  encodeURIComponent (jql a) = Some e ->
  run (getJiraIssues env a) net
  = (match net (jira_request env a e) with
     | None => Rejected TypeError
     | Some response =>
         if Http.ok response then
           match Http.json response with
           | Some data =>
               Fulfilled
                 (text_result
                    (or_else (join [10%N] (map jira_line (JiraApi.issues data)))
                             (str "No matching issues found.")))
           | None => Rejected SyntaxError
           end
         else Rejected (Error (str "Jira error: " ++ Http.text response))
     end, [jira_request env a e]).
Proof.
  intros He.
  unfold run, getJiraIssues, bind, encodeURI_. rewrite He.
  unfold ret at 1, fetch, maxResults. fold (jira_request env a e).
  destruct (net (jira_request env a e)) as [response|]; [|reflexivity].
  destruct (Http.ok response); simpl; [|reflexivity].
  unfold response_json. destruct (Http.json response); reflexivity.
Qed.

Lemma run_getJiraIssues_URIError (env : Env) (a : JiraTool.Args)
  (net : Http.Network JiraApi.Data) :
  encodeURIComponent (jql a) = None ->
  run (getJiraIssues env a) net = (Rejected URIError, []).
Proof.
  intros He. unfold run, getJiraIssues, bind, encodeURI_. now rewrite He.
Qed.

Lemma run_getServiceNowIncidents (env : Env) (params : SnTool.Params)
  (net : Http.Network SnApi.Data) (e : jsstring) :
  encodeURIComponent (sysparm_query params) = Some e ->
  run (getServiceNowIncidents env params) net
  = (match net (sn_request env params e) with
     | None => Rejected TypeError
     | Some response =>
         if Http.ok response then
           match Http.json response with
           | Some data =>
               Fulfilled
                 (text_result
                    (or_else
                       (join [10%N] (map incident_line (SnApi.result data)))
                       (str "No incidents found.")))
           | None => Rejected SyntaxError
           end
         else Rejected (Error (str "ServiceNow error: " ++ Http.text response))
     end, [sn_request env params e]).
Proof.
  intros He.
  unfold run, getServiceNowIncidents, bind, encodeURI_. rewrite He.
  unfold ret at 1, fetch, sysparm_limit. fold (sn_request env params e).
  destruct (net (sn_request env params e)) as [response|]; [|reflexivity].
  destruct (Http.ok response); simpl; [|reflexivity].
  unfold response_json. destruct (Http.json response); reflexivity.
Qed.

Lemma jqlParts_length (a : JiraTool.Args) :
  List.length (jqlParts a)
  = 1 + List.length
          (filter (fun f => truthy_opt (jira_value f a))
                  [Status; Summary; Label; Assignee; IssueType]).
Proof.
  destruct a as [p st su la asg it li].
  destruct st as [[|? ?]|], su as [[|? ?]|], la as [[|? ?]|],
           asg as [[|? ?]|], it as [[|? ?]|];
    reflexivity.
Qed.

Lemma queryParts_length (params : SnTool.Params) :
  List.length (queryParts params)
  = List.length
      (filter (fun f => present_nonblank (sn_value f params))
              [AssignedTo; State; Priority; ShortDescription]).
Proof.
  destruct params as [a st pr sd li].
  cbv [queryParts push_trimmed sn_value present_nonblank filter
       SnTool.assigned_to SnTool.state SnTool.priority
       SnTool.short_description].
  destruct a as [a|], st as [st|], pr as [pr|], sd as [sd|];
    repeat match goal with
           | |- context [trim ?x] => destruct (trim x)
           end;
    reflexivity.
Qed.

(** ** The argument schemas accept every typed argument object *)

Lemma parse_jira_raw (a : JiraTool.Args) :
  JiraSchema.parse (jira_raw a) = Some a.
Proof.
  destruct a as [p [st|] [su|] [la|] [asg|] [it|] [li|]]; reflexivity.
Qed.

Lemma parse_sn_raw (params : SnTool.Params) :
  SnSchema.parse (sn_raw params) = Some params.
Proof.
  destruct params as [[a|] [st|] [pr|] [sd|] [li|]]; reflexivity.
Qed.

(** ** The claims about the two translators *)

(** C1, as the code has it: the ServiceNow translator writes one clause for
    each of its filters that is present and non-blank after trimming, with
    the trimmed value after the operator, and none for the others; the Jira
    translator writes one clause for each of its filters that is a non-empty
    string, with the value as it came between double quotes, and none for
    the others.  Neither clause list holds anything else, but for the
    project clause of Jira. *)
Theorem C1_one_clause_per_filter :
  (forall (params : SnTool.Params) (f : sn_field),
      clauses_of (sn_op f) (queryParts params)
      = match sn_value f params with
        | Some s => if truthy (trim s) then [sn_op f ++ trim s] else []
        | None => []
        end)
  /\ (forall params : SnTool.Params,
         List.length (queryParts params)
         = List.length
             (filter (fun f => present_nonblank (sn_value f params))
                     [AssignedTo; State; Priority; ShortDescription]))
  /\ (forall (a : JiraTool.Args) (f : jira_field),
         clauses_of (jira_op f) (jqlParts a)
         = match jira_value f a with
           | Some v => if truthy v then [jira_op f ++ v ++ dquote] else []
           | None => []
           end)
  /\ (forall a : JiraTool.Args,
         List.length (jqlParts a)
         = 1 + List.length
                 (filter (fun f => truthy_opt (jira_value f a))
                         [Status; Summary; Label; Assignee; IssueType])).
Proof.
  repeat split.
  - apply queryParts_clauses.
  - apply queryParts_length.
  - apply jqlParts_clauses.
  - apply jqlParts_length.
Qed.

(** C1 as the specification words it fails on the Jira translator: a status
    of three spaces is blank after trimming and still has its clause. *)
Lemma C1_blank_status_counterexample :
  ~ jira_blank_filters_dropped blank_status_args.
Proof.
  intros H. specialize (H Status eq_refl). vm_compute in H. discriminate H.
Qed.

(** C3 as the specification words it fails: a priority of 1 is in the
    query. *)
Lemma C3_priority_counterexample :
  ~ priority_never_in_query priority_args
  /\ sysparm_query priority_args = str "priority=1".
Proof.
  split; [|reflexivity].
  intros H. vm_compute in H. discriminate H.
Qed.

(** C6: with the project alone, the Jira query is [project=<project>]; with
    no filter, the ServiceNow query is the empty string. *)
Theorem C6_scope_only :
  (forall (project : jsstring) (limit : option number),
      jql (only_project project limit) = str "project=" ++ project)
  /\ (forall limit : option number, sysparm_query (no_filters limit) = []).
Proof.
  split; intros; reflexivity.
Qed.

(** C7: assignee bob and text match [disk full] give the ServiceNow query
    [assigned_to=bob^short_descriptionLIKEdisk full]. *)
Theorem C7_bob_disk_full :
  forall limit : option number,
    sysparm_query (bob_disk_full limit)
    = str "assigned_to=bob^short_descriptionLIKEdisk full".
Proof.
  intros limit. reflexivity.
Qed.

(** C10: a filter value goes into the Jira query as it came, between double
    quotes and with nothing escaped; the status [Done" AND assignee="admin]
    holds a double quote and makes a query of three clauses from an argument
    object with two fields set. *)
Theorem C10_status_interpolated_verbatim :
  (forall (a : JiraTool.Args) (f : jira_field),
      match jira_value f a with
      | Some (c :: v) => In (jira_op f ++ (c :: v) ++ dquote) (jqlParts a)
      | _ => True
      end)
  /\ (forall (project : jsstring) (c : code_unit) (v : jsstring)
             (limit : option number),
         jql {| JiraTool.project := project;
                JiraTool.status := Some (c :: v);
                JiraTool.summary := None;
                JiraTool.label := None;
                JiraTool.assignee := None;
                JiraTool.issueType := None;
                JiraTool.limit := limit |}
         = str "project=" ++ project ++ str " AND status=" ++ dquote ++
           (c :: v) ++ dquote)
  /\ In 34%N injected_status
  /\ fields_set injected_status_args = 2
  /\ split (jql injected_status_args) (str " AND ")
     = [ str "project=MCP";
         str "status=" ++ dquote ++ str "Done" ++ dquote;
         str "assignee=" ++ dquote ++ str "admin" ++ dquote ]
  /\ fields_set injected_status_args
     < List.length (split (jql injected_status_args) (str " AND ")).
Proof.
  split; [|split; [|split; [|split; [|split]]]].
  - intros a f. pose proof (jqlParts_clauses a f) as H.
    destruct (jira_value f a) as [[|c v]|]; trivial.
    simpl in H.
    apply (filter_In (fun clause => startsWith clause (jira_op f))).
    fold (clauses_of (jira_op f) (jqlParts a)). rewrite H. now left.
  - intros project c v limit. vm_compute. reflexivity.
  - vm_compute. tauto.
  - reflexivity.
  - reflexivity.
  - vm_compute. lia.
Qed.

(** ** The claims about the handlers *)

Lemma includes_app (p s : jsstring) : includes (p ++ s) s = true.
Proof.
  induction p as [|c p IH].
  - destruct s as [|d s]; simpl; [reflexivity|].
    rewrite <- (app_nil_r s) at 1.
    now rewrite N.eqb_refl, startsWith_app.
  - simpl. rewrite IH. apply orb_true_r.
Qed.

Lemma call_jira_raw (env : Env) (a : JiraTool.Args)
  (net : Http.Network JiraApi.Data) :
  call_getJiraIssues env (jira_raw a) net
  = (Handled (fst (run (getJiraIssues env a) net)),
     snd (run (getJiraIssues env a) net)).
Proof.
  unfold call_getJiraIssues, tool_call. rewrite parse_jira_raw.
  now destruct (run (getJiraIssues env a) net).
Qed.

Lemma call_sn_raw (env : Env) (params : SnTool.Params)
  (net : Http.Network SnApi.Data) :
  call_getServiceNowIncidents env (sn_raw params) net
  = (Handled (fst (run (getServiceNowIncidents env params) net)),
     snd (run (getServiceNowIncidents env params) net)).
Proof.
  unfold call_getServiceNowIncidents, tool_call. rewrite parse_sn_raw.
  now destruct (run (getServiceNowIncidents env params) net).
Qed.

(** C2, as the code has it: a call whose query encodes is handled and sends
    its one request whatever the limit; the request carries 5 for an absent
    limit and otherwise the limit itself, printed as [`${limit}`] prints a
    Number: 3 for 3, 0 for 0, -1 for -1, 2.5 for 2.5 and 1e+21 for
    10^21. *)
Theorem C2_limit_default_or_as_given :
  (forall (env : Env) (a : JiraTool.Args) (net : Http.Network JiraApi.Data)
          (e : jsstring),
      encodeURIComponent (jql a) = Some e ->
      exists s,
        call_getJiraIssues env (jira_raw a) net
        = (Handled s,
           [ {| Http.url :=
                  str "https://" ++ JIRA_DOMAIN env ++
                  str "/rest/api/3/search?jql=" ++ e ++
                  str "&maxResults=" ++
                  match JiraTool.limit a with
                  | Some n => float_toString (float_of n)
                  | None => str "5"
                  end;
                Http.headers := jira_headers env |} ]))
  /\ (forall (env : Env) (params : SnTool.Params)
             (net : Http.Network SnApi.Data) (e : jsstring),
         encodeURIComponent (sysparm_query params) = Some e ->
         exists s,
           call_getServiceNowIncidents env (sn_raw params) net
           = (Handled s,
              [ {| Http.url :=
                     str "https://" ++ SN_INSTANCE env ++
                     str ".service-now.com/api/now/table/incident?sysparm_limit=" ++
                     match SnTool.limit params with
                     | Some n => float_toString (float_of n)
                     | None => str "5"
                     end ++ str "&sysparm_query=" ++ e;
                   Http.headers := sn_headers env |} ]))
  /\ float_toString 3 = str "3"
  /\ float_toString 0 = str "0"
  /\ float_toString (-1) = str "-1"
  /\ float_toString 2.5 = str "2.5"
  /\ float_toString 1e21 = str "1e+21".
Proof.
  split; [|split; [|repeat split; vm_compute; reflexivity]].
  - intros env a net e He.
    rewrite call_jira_raw, (run_getJiraIssues env a net He).
    unfold jira_request, jira_url, Number_toString.
    destruct (JiraTool.limit a); eexists; reflexivity.
  - intros env params net e He.
    rewrite call_sn_raw, (run_getServiceNowIncidents env params net He).
    unfold sn_request, sn_url, Number_toString.
    destruct (SnTool.limit params); eexists; reflexivity.
Qed.

(** The two halves of C2 on a Jira call with limit 0 and a ServiceNow call
    with limit -1. *)
Lemma C2_limit_witness :
  (encodeURIComponent (jql (only_project (str "MCP") (Some zero)))
   = Some (str "project%3DMCP")
   /\ exists s,
       call_getJiraIssues sample_env
         (jira_raw (only_project (str "MCP") (Some zero))) (always no_issues)
       = (Handled s,
          [ {| Http.url :=
                 str "https://acme.atlassian.net/rest/api/3/search?jql=project%3DMCP&maxResults=0";
               Http.headers := jira_headers sample_env |} ]))
  /\ (encodeURIComponent (sysparm_query (no_filters (Some minus_one)))
      = Some []
      /\ exists s,
          call_getServiceNowIncidents sample_env
            (sn_raw (no_filters (Some minus_one))) (always no_incidents)
          = (Handled s,
             [ {| Http.url :=
                    str "https://prod1.service-now.com/api/now/table/incident?sysparm_limit=-1&sysparm_query=";
                  Http.headers := sn_headers sample_env |} ])).
Proof.
  split; (split; [reflexivity|]).
  - exact (proj1 C2_limit_default_or_as_given sample_env
             (only_project (str "MCP") (Some zero)) (always no_issues)
             (str "project%3DMCP") eq_refl).
  - exact (proj1 (proj2 C2_limit_default_or_as_given) sample_env
             (no_filters (Some minus_one)) (always no_incidents) [] eq_refl).
Defined.

(** C2 as the specification words it fails: a Jira call with limit 0 and a
    ServiceNow call with limit -1 are not rejected, they send their
    request. *)
Lemma C2_limit_counterexample :
  ~ jira_limit_validated sample_env (only_project (str "MCP") (Some zero))
      (always no_issues)
  /\ ~ sn_limit_validated sample_env (no_filters (Some minus_one))
         (always no_incidents).
Proof.
  split.
  - intros H. destruct (H zero eq_refl eq_refl) as [Hlog _].
    vm_compute in Hlog. discriminate Hlog.
  - intros H. destruct (H minus_one eq_refl eq_refl) as [Hlog _].
    vm_compute in Hlog. discriminate Hlog.
Qed.

(** The yo-momma handler on a response that is not a success. *)
Lemma run_getYoMommaJoke_not_ok (net : Http.Network YoMomma.Data)
  (response : Http.Response YoMomma.Data) :
  net yo_momma_request = Some response ->
  Http.ok response = false ->
  run getYoMommaJoke net
  = (Rejected (Error (str "Failed to fetch Yo Momma joke")),
     [yo_momma_request]).
Proof.
  intros Hnet Hok.
  unfold run, getYoMommaJoke, bind, fetch. fold yo_momma_request.
  rewrite Hnet, Hok. reflexivity.
Qed.

(** C4, as the code has it: on a response that is not a success, the Jira
    and ServiceNow handlers throw an error whose message is the body of the
    response after [Jira error: ] or [ServiceNow error: ], and the yo-momma
    handler throws an error with a fixed message; each has sent its one
    request and returns no text. *)
Theorem C4_error_on_non_success :
  (forall (env : Env) (a : JiraTool.Args) (net : Http.Network JiraApi.Data)
          (e : jsstring) (response : Http.Response JiraApi.Data),
      encodeURIComponent (jql a) = Some e ->
      net (jira_request env a e) = Some response ->
      Http.ok response = false ->
      run (getJiraIssues env a) net
      = (Rejected (Error (str "Jira error: " ++ Http.text response)),
         [jira_request env a e])
      /\ fails_with_body (run (getJiraIssues env a) net) response)
  /\ (forall (env : Env) (params : SnTool.Params)
             (net : Http.Network SnApi.Data) (e : jsstring)
             (response : Http.Response SnApi.Data),
         encodeURIComponent (sysparm_query params) = Some e ->
         net (sn_request env params e) = Some response ->
         Http.ok response = false ->
         run (getServiceNowIncidents env params) net
         = (Rejected (Error (str "ServiceNow error: " ++ Http.text response)),
            [sn_request env params e])
         /\ fails_with_body (run (getServiceNowIncidents env params) net)
              response)
  /\ (forall (net : Http.Network YoMomma.Data)
             (response : Http.Response YoMomma.Data),
         net yo_momma_request = Some response ->
         Http.ok response = false ->
         run getYoMommaJoke net
         = (Rejected (Error (str "Failed to fetch Yo Momma joke")),
            [yo_momma_request])).
Proof.
  split; [|split].
  - intros env a net e response He Hnet Hok.
    rewrite (run_getJiraIssues env a net He), Hnet, Hok.
    split; [reflexivity|].
    eexists. split; [reflexivity|]. apply includes_app.
  - intros env params net e response He Hnet Hok.
    rewrite (run_getServiceNowIncidents env params net He), Hnet, Hok.
    split; [reflexivity|].
    eexists. split; [reflexivity|]. apply includes_app.
  - apply run_getYoMommaJoke_not_ok.
Qed.

(** The three parts of C4 on an answer of status 401. *)
Lemma C4_non_success_witness :
  (encodeURIComponent (jql (only_project (str "MCP") None))
   = Some (str "project%3DMCP")
   /\ Http.ok (@unauthorized JiraApi.Data) = false
   /\ run (getJiraIssues sample_env (only_project (str "MCP") None))
        (always unauthorized)
      = (Rejected
           (Error
              (str "Jira error: Client must be authenticated to access this resource.")),
         [ {| Http.url :=
                str "https://acme.atlassian.net/rest/api/3/search?jql=project%3DMCP&maxResults=5";
              Http.headers := jira_headers sample_env |} ]))
  /\ (encodeURIComponent (sysparm_query (bob_disk_full None))
      = Some (str "assigned_to%3Dbob%5Eshort_descriptionLIKEdisk%20full")
      /\ Http.ok (@unauthorized SnApi.Data) = false
      /\ run (getServiceNowIncidents sample_env (bob_disk_full None))
           (always unauthorized)
         = (Rejected
              (Error
                 (str "ServiceNow error: Client must be authenticated to access this resource.")),
            [ {| Http.url :=
                   str "https://prod1.service-now.com/api/now/table/incident?sysparm_limit=5&sysparm_query=assigned_to%3Dbob%5Eshort_descriptionLIKEdisk%20full";
                 Http.headers := sn_headers sample_env |} ]))
  /\ (Http.ok (@unauthorized YoMomma.Data) = false
      /\ run getYoMommaJoke (always unauthorized)
         = (Rejected (Error (str "Failed to fetch Yo Momma joke")),
            [yo_momma_request])).
Proof.
  split; [|split].
  - split; [reflexivity|]. split; [reflexivity|].
    exact (proj1 (proj1 C4_error_on_non_success sample_env
                    (only_project (str "MCP") None) (always unauthorized)
                    (str "project%3DMCP") unauthorized
                    eq_refl eq_refl eq_refl)).
  - split; [reflexivity|]. split; [reflexivity|].
    exact (proj1 (proj1 (proj2 C4_error_on_non_success) sample_env
                    (bob_disk_full None) (always unauthorized)
                    (str "assigned_to%3Dbob%5Eshort_descriptionLIKEdisk%20full")
                    unauthorized eq_refl eq_refl eq_refl)).
  - split; [reflexivity|].
    exact (proj2 (proj2 C4_error_on_non_success) (always unauthorized)
             unauthorized eq_refl eq_refl).
Defined.

(** C4 as the specification words it fails on the joke tools: the error the
    yo-momma handler throws on a 401 does not carry the body of the response,
    and the Chuck Norris handler, which does not look at the status, returns
    a text on a 500 whose body is JSON. *)
Lemma C4_joke_tools_counterexample :
  (Http.ok (@unauthorized YoMomma.Data) = false
   /\ ~ fails_with_body (run getYoMommaJoke (always unauthorized))
          (@unauthorized YoMomma.Data))
  /\ (Http.ok chuck_failure = false
      /\ run getChuckJoke (always chuck_failure)
         = (Fulfilled (text_result (str "boom")), [chuck_request])
      /\ ~ fails_with_body (run getChuckJoke (always chuck_failure))
             chuck_failure).
Proof.
  split; split; try reflexivity.
  - intros [message [Hrun Hbody]].
    vm_compute in Hrun. injection Hrun as <-.
    vm_compute in Hbody. discriminate Hbody.
  - split; [reflexivity|].
    intros [message [Hrun _]]. vm_compute in Hrun. discriminate Hrun.
Qed.

Lemma or_else_truthy (a b : jsstring) : a <> [] -> or_else a b = a.
Proof.
  intros Ha. destruct a; [contradiction | reflexivity].
Qed.

(** C5, as the code has it: a call without a project, or with a project that
    is not a string, fails the schema and nothing is sent; the handler runs
    only with a project that came as a string, and the empty string is one:
    its query is [project=] and its request is sent. *)
Theorem C5_project_required_by_schema_only :
  (forall (env : Env) (raw : JiraSchema.Raw)
          (net : Http.Network JiraApi.Data),
      (forall p, JiraSchema.project raw <> Some (Zod.VString p)) ->
      call_getJiraIssues env raw net = (InvalidParams, []))
  /\ (forall (raw : JiraSchema.Raw) (a : JiraTool.Args),
         JiraSchema.parse raw = Some a ->
         JiraSchema.project raw = Some (Zod.VString (JiraTool.project a)))
  /\ (forall limit : option number, jql (only_project [] limit) = str "project=")
  /\ (forall (env : Env) (limit : option number)
             (net : Http.Network JiraApi.Data),
         exists s,
           call_getJiraIssues env (jira_raw (only_project [] limit)) net
           = (Handled s,
              [jira_request env (only_project [] limit) (str "project%3D")])).
Proof.
  split; [|split; [|split]].
  - intros env raw net Hp.
    unfold call_getJiraIssues, tool_call, JiraSchema.parse.
    destruct (JiraSchema.project raw) as [[p| |]|]; try reflexivity.
    now contradiction (Hp p).
  - intros raw a. unfold JiraSchema.parse.
    destruct (JiraSchema.project raw) as [[p| |]|]; simpl;
      try discriminate.
    destruct (Zod.string_optional (JiraSchema.status raw));
      try discriminate.
    destruct (Zod.string_optional (JiraSchema.summary raw));
      try discriminate.
    destruct (Zod.string_optional (JiraSchema.label raw));
      try discriminate.
    destruct (Zod.string_optional (JiraSchema.assignee raw));
      try discriminate.
    destruct (Zod.string_optional (JiraSchema.issueType raw));
      try discriminate.
    destruct (Zod.number_optional (JiraSchema.limit raw));
      try discriminate.
    intros H. injection H as <-. reflexivity.
  - intros limit. reflexivity.
  - intros env limit net.
    rewrite call_jira_raw.
    rewrite (@run_getJiraIssues env (only_project [] limit) net
               (str "project%3D") eq_refl).
    eexists. reflexivity.
Qed.

(** The schema half of C5 on a call without a project and on a call whose
    project is the empty string. *)
Lemma C5_project_witness :
  ((forall p, JiraSchema.project missing_project_raw <> Some (Zod.VString p))
   /\ call_getJiraIssues sample_env missing_project_raw (always no_issues)
      = (InvalidParams, []))
  /\ (JiraSchema.parse empty_project_raw = Some (only_project [] None)
      /\ JiraSchema.project empty_project_raw = Some (Zod.VString [])).
Proof.
  split.
  - split; [intros p; discriminate|].
    apply (proj1 C5_project_required_by_schema_only sample_env
             missing_project_raw (always no_issues)).
    intros p; discriminate.
  - split; [reflexivity|].
    exact (proj1 (proj2 C5_project_required_by_schema_only)
             empty_project_raw (only_project [] None) eq_refl).
Defined.

(** C5 as the specification words it fails: a call whose project is the
    empty string is not rejected, its request is sent. *)
Lemma C5_empty_project_counterexample :
  ~ scope_validated sample_env empty_project_raw (always no_issues).
Proof.
  intros H. destruct (H (or_intror eq_refl)) as [Hlog _].
  vm_compute in Hlog. discriminate Hlog.
Qed.

(** C8: on a successful answer, the Jira handler returns
    [No matching issues found.] for an empty issue list and the lines
    [#<key>: <summary> [<status>]] joined by newlines otherwise; the
    ServiceNow handler returns [No incidents found.] for an empty incident
    list and the lines [#<number>: <short_description>] joined by newlines
    otherwise; the text is never the empty string. *)
Theorem C8_sentinel_or_lines :
  (forall (env : Env) (a : JiraTool.Args) (net : Http.Network JiraApi.Data)
          (e : jsstring) (response : Http.Response JiraApi.Data)
          (data : JiraApi.Data),
      encodeURIComponent (jql a) = Some e ->
      net (jira_request env a e) = Some response ->
      Http.ok response = true ->
      Http.json response = Some data ->
      exists t,
        run (getJiraIssues env a) net
        = (Fulfilled (
          {| content :=
               [ {| type := str "text";
                    text := t |} ] |}), [jira_request env a e])
        /\ t <> []
        /\ (JiraApi.issues data = [] -> t = str "No matching issues found.")
        /\ (JiraApi.issues data <> [] ->
            t = join [10%N]
                  (map (fun i =>
                          str "#" ++ JiraApi.key i ++ str ": " ++
                          JiraApi.summary (JiraApi.fields i) ++ str " [" ++
                          JiraApi.name (JiraApi.status (JiraApi.fields i)) ++
                          str "]")
                       (JiraApi.issues data))))
  /\ (forall (env : Env) (params : SnTool.Params)
             (net : Http.Network SnApi.Data) (e : jsstring)
             (response : Http.Response SnApi.Data) (data : SnApi.Data),
         encodeURIComponent (sysparm_query params) = Some e ->
         net (sn_request env params e) = Some response ->
         Http.ok response = true ->
         Http.json response = Some data ->
         exists t,
           run (getServiceNowIncidents env params) net
           = (Fulfilled (
             {| content :=
                  [ {| type := str "text";
                       text := t |} ] |}), [sn_request env params e])
           /\ t <> []
           /\ (SnApi.result data = [] -> t = str "No incidents found.")
           /\ (SnApi.result data <> [] ->
               t = join [10%N]
                     (map (fun i =>
                             str "#" ++ SnApi.number i ++ str ": " ++
                             SnApi.short_description i)
                          (SnApi.result data)))).
Proof.
  split.
  - intros env a net e response data He Hnet Hok Hjson.
    rewrite (run_getJiraIssues env a net He), Hnet, Hok, Hjson.
    eexists. split; [reflexivity|].
    split; [apply or_else_nonempty; discriminate|].
    split.
    + intros ->. reflexivity.
    + intros Hne. apply or_else_truthy.
      destruct (JiraApi.issues data) as [|i rest]; [contradiction|].
      apply join_cons_nonempty. discriminate.
  - intros env params net e response data He Hnet Hok Hjson.
    rewrite (run_getServiceNowIncidents env params net He), Hnet, Hok, Hjson.
    eexists. split; [reflexivity|].
    split; [apply or_else_nonempty; discriminate|].
    split.
    + intros ->. reflexivity.
    + intros Hne. apply or_else_truthy.
      destruct (SnApi.result data) as [|i rest]; [contradiction|].
      apply join_cons_nonempty. discriminate.
Qed.

(** C8 on a Jira answer with two issues and on a ServiceNow answer with no
    incident. *)
Lemma C8_answers_witness :
  (encodeURIComponent (jql (only_project (str "MCP") None))
   = Some (str "project%3DMCP")
   /\ Http.ok two_issues = true
   /\ exists t,
       run (getJiraIssues sample_env (only_project (str "MCP") None))
         (always two_issues)
       = (Fulfilled ({| content := [ {| type := str "text"; text := t |} ] |}),
          [jira_request sample_env (only_project (str "MCP") None)
             (str "project%3DMCP")])
       /\ t = str "#MCP-1: Fix login [Done]" ++ [10%N] ++
              str "#MCP-2: Add logout [To Do]")
  /\ (encodeURIComponent (sysparm_query (no_filters None)) = Some []
      /\ Http.ok no_incidents = true
      /\ exists t,
          run (getServiceNowIncidents sample_env (no_filters None))
            (always no_incidents)
          = (Fulfilled (
            {| content :=
                 [ {| type := str "text";
                      text := t |} ] |}),
             [sn_request sample_env (no_filters None) []])
          /\ t = str "No incidents found.").
Proof.
  split.
  - split; [reflexivity|]. split; [reflexivity|].
    destruct (proj1 C8_sentinel_or_lines sample_env
                (only_project (str "MCP") None) (always two_issues)
                (str "project%3DMCP") two_issues two_issues_data
                eq_refl eq_refl eq_refl eq_refl)
      as [t [Hrun [_ [_ Hlines]]]].
    exists t. split; [exact Hrun|].
    rewrite Hlines; [reflexivity | discriminate].
  - split; [reflexivity|]. split; [reflexivity|].
    destruct (proj2 C8_sentinel_or_lines sample_env
                (no_filters None) (always no_incidents)
                [] no_incidents {| SnApi.result := [] |}
                eq_refl eq_refl eq_refl eq_refl)
      as [t [Hrun [_ [Hsentinel _]]]].
    exists t. split; [exact Hrun|].
    exact (Hsentinel eq_refl).
Defined.

(** C9, as the code has it: on a successful answer, the Chuck Norris joke
    tools return the [value] of the answer and the dad-joke tool its [joke],
    as they came; the yo-momma tool returns two lines, [Category: ] with the
    category and [Joke: ] with the joke. *)
Theorem C9_joke_texts :
  (forall (net : Http.Network Chuck.Data)
          (response : Http.Response Chuck.Data) (data : Chuck.Data),
      net chuck_request = Some response ->
      Http.ok response = true ->
      Http.json response = Some data ->
      run getChuckJoke net
      = (Fulfilled (
        {| content :=
             [ {| type := str "text";
                  text := Chuck.value data |} ] |}), [chuck_request]))
  /\ (forall (category : jsstring) (net : Http.Network Chuck.Data)
             (response : Http.Response Chuck.Data) (data : Chuck.Data),
         net (chuck_category_request category) = Some response ->
         Http.ok response = true ->
         Http.json response = Some data ->
         run (getChuckJokeByCategory category) net
         = (Fulfilled (
           {| content :=
                [ {| type := str "text";
                     text := Chuck.value data |} ] |}),
            [chuck_category_request category]))
  /\ (forall (net : Http.Network Dad.Data)
             (response : Http.Response Dad.Data) (data : Dad.Data),
         net dad_request = Some response ->
         Http.ok response = true ->
         Http.json response = Some data ->
         run getDadJoke net
         = (Fulfilled (
           {| content :=
                [ {| type := str "text";
                     text := Dad.joke data |} ] |}), [dad_request]))
  /\ (forall (net : Http.Network YoMomma.Data)
             (response : Http.Response YoMomma.Data) (data : YoMomma.Data),
         net yo_momma_request = Some response ->
         Http.ok response = true ->
         Http.json response = Some data ->
         run getYoMommaJoke net
         = (Fulfilled
              (
                {| content :=
                     [ {| type := str "text";
                          text :=
                            str "Category: " ++
                            YoMomma.category data ++
                            [10%N] ++
                            str "Joke: " ++
                            YoMomma.joke data |} ] |}),
            [yo_momma_request])).
Proof.
  split; [|split; [|split]].
  - intros net response data Hnet _ Hjson.
    unfold run, getChuckJoke, bind, fetch. fold chuck_request.
    rewrite Hnet. unfold response_json. rewrite Hjson. reflexivity.
  - intros category net response data Hnet _ Hjson.
    unfold run, getChuckJokeByCategory, bind, fetch.
    fold (chuck_category_request category).
    rewrite Hnet. unfold response_json. rewrite Hjson. reflexivity.
  - intros net response data Hnet _ Hjson.
    unfold run, getDadJoke, bind, fetch. fold dad_request.
    rewrite Hnet. unfold response_json. rewrite Hjson. reflexivity.
  - intros net response data Hnet Hok Hjson.
    unfold run, getYoMommaJoke, bind, fetch. fold yo_momma_request.
    rewrite Hnet, Hok. simpl. unfold response_json. rewrite Hjson.
    reflexivity.
Qed.

(** C9 on one successful answer for each of the four tools. *)
Lemma C9_jokes_witness :
  (Http.ok chuck_ok = true
   /\ run getChuckJoke (always chuck_ok)
      = (Fulfilled (
        {| content :=
             [ {| type := str "text";
                  text := str "Chuck Norris can divide by zero." |} ] |}),
         [chuck_request]))
  /\ (Http.ok chuck_ok = true
      /\ run (getChuckJokeByCategory (str "dev")) (always chuck_ok)
         = (Fulfilled (
           {| content :=
                [ {| type := str "text";
                     text := str "Chuck Norris can divide by zero." |} ] |}),
            [ {| Http.url :=
                   str "https://api.chucknorris.io/jokes/random?category=dev";
                 Http.headers := [] |} ]))
  /\ (Http.ok dad_ok = true
      /\ run getDadJoke (always dad_ok)
         = (Fulfilled
              (
                {| content :=
                     [ {| type := str "text";
                          text := str "I used to hate facial hair, but then it grew on me." |} ] |}),
            [dad_request]))
  /\ (Http.ok yo_momma_ok = true
      /\ run getYoMommaJoke (always yo_momma_ok)
         = (Fulfilled
              (
                {| content :=
                     [ {| type := str "text";
                          text :=
                            str "Category: fat" ++
                            [10%N] ++
                            str "Joke: Yo momma is so fat, her shadow weighs a ton." |} ] |}),
            [yo_momma_request])).
Proof.
  split; [|split; [|split]]; (split; [reflexivity|]).
  - exact (proj1 C9_joke_texts (always chuck_ok) chuck_ok chuck_joke
             eq_refl eq_refl eq_refl).
  - exact (proj1 (proj2 C9_joke_texts) (str "dev") (always chuck_ok)
             chuck_ok chuck_joke eq_refl eq_refl eq_refl).
  - exact (proj1 (proj2 (proj2 C9_joke_texts)) (always dad_ok) dad_ok
             dad_joke eq_refl eq_refl eq_refl).
  - exact (proj2 (proj2 (proj2 C9_joke_texts)) (always yo_momma_ok)
             yo_momma_ok yo_momma_joke eq_refl eq_refl eq_refl).
Defined.

(** C9 as the specification words it fails on the yo-momma tool: its text
    is not the category, a colon and the joke. *)
Lemma C9_yo_momma_counterexample :
  Http.ok yo_momma_ok = true
  /\ result_text (fst (run getYoMommaJoke (always yo_momma_ok)))
     = Some (str "Category: fat" ++ [10%N] ++
             str "Joke: Yo momma is so fat, her shadow weighs a ton.")
  /\ result_text (fst (run getYoMommaJoke (always yo_momma_ok)))
     <> Some (category_colon_text yo_momma_joke).
Proof.
  split; [reflexivity|]. split; [reflexivity|].
  vm_compute. discriminate.
Qed.

(** * Further properties of the code *)

Unset Implicit Arguments.

(** ** Trimming *)

Lemma trimStart_head_ok s : head_ok (trimStart s) = true.
Proof.
  induction s as [|c s IH]; simpl; [reflexivity|].
  destruct (is_white_space c) eqn:E; [exact IH|]. simpl. now rewrite E.
Qed.

Lemma trimStart_fixed s : head_ok s = true -> trimStart s = s.
Proof.
  destruct s as [|c s]; simpl; [reflexivity|].
  intros H. apply negb_true_iff in H. now rewrite H.
Qed.

Lemma trimStart_split s :
  exists ws, s = ws ++ trimStart s /\ forallb is_white_space ws = true.
Proof.
  induction s as [|c s [ws [H1 H2]]]; simpl.
  - exists []. split; reflexivity.
  - destruct (is_white_space c) eqn:E.
    + exists (c :: ws). simpl. rewrite E, H2. split; [now f_equal | reflexivity].
    + exists []. split; reflexivity.
Qed.

Lemma trimStart_blank_app ws s :
  forallb is_white_space ws = true -> trimStart (ws ++ s) = trimStart s.
Proof.
  induction ws as [|c ws IH]; simpl; [reflexivity|].
  intros H. apply andb_true_iff in H as [Hc Hws]. rewrite Hc. auto.
Qed.

Lemma trimStart_app_nonblank s r :
  trimStart s <> [] -> trimStart (s ++ r) = trimStart s ++ r.
Proof.
  induction s as [|c s IH]; simpl; [congruence|].
  destruct (is_white_space c); [exact IH | reflexivity].
Qed.

Lemma head_ok_app_l s r : s <> [] -> head_ok (s ++ r) = head_ok s.
Proof. destruct s; [congruence | reflexivity]. Qed.

Lemma trim_head_ok s : head_ok (trim s) = true.
Proof.
  unfold trim, trimEnd.
  destruct (trimStart_split (rev (trimStart s))) as [ws [H1 H2]].
  set (u := trimStart (rev (trimStart s))) in *.
  destruct (rev u) as [|c r] eqn:E; [reflexivity|].
  assert (Ht : trimStart s = rev u ++ rev ws).
  { rewrite <- rev_app_distr, <- H1. now rewrite rev_involutive. }
  pose proof (trimStart_head_ok s) as Hh. rewrite Ht, E in Hh. exact Hh.
Qed.

Lemma trim_last_ok s : head_ok (rev (trim s)) = true.
Proof.
  unfold trim, trimEnd. rewrite rev_involutive. apply trimStart_head_ok.
Qed.

Lemma trim_fixed s :
  head_ok s = true -> head_ok (rev s) = true -> trim s = s.
Proof.
  intros H1 H2. unfold trim, trimEnd.
  rewrite (trimStart_fixed s H1), (trimStart_fixed (rev s) H2).
  apply rev_involutive.
Qed.

Lemma trim_idempotent s : trim (trim s) = trim s.
Proof. apply trim_fixed; [apply trim_head_ok | apply trim_last_ok]. Qed.

Lemma forallb_rev {A} (f : A -> bool) l : forallb f (rev l) = forallb f l.
Proof.
  induction l as [|a l IH]; simpl; [reflexivity|].
  rewrite forallb_app, IH. simpl. rewrite andb_true_r. apply andb_comm.
Qed.

Lemma trimStart_all_blank s :
  forallb is_white_space s = true -> trimStart s = [].
Proof.
  induction s as [|c s IH]; simpl; [reflexivity|].
  intros H. apply andb_true_iff in H as [Hc Hs]. rewrite Hc. auto.
Qed.

Lemma trimStart_nil_blank s :
  trimStart s = [] -> forallb is_white_space s = true.
Proof.
  induction s as [|c s IH]; simpl; [reflexivity|].
  destruct (is_white_space c); [exact IH | discriminate].
Qed.

Lemma trim_pad l s r :
  forallb is_white_space l = true -> forallb is_white_space r = true ->
  trim (l ++ s ++ r) = trim s.
Proof.
  intros Hl Hr. unfold trim. rewrite (trimStart_blank_app l _ Hl).
  destruct (trimStart s) as [|c t] eqn:E.
  - rewrite trimStart_all_blank; [reflexivity|].
    rewrite forallb_app, Hr, (trimStart_nil_blank s E). reflexivity.
  - rewrite trimStart_app_nonblank by congruence. rewrite E.
    unfold trimEnd. rewrite rev_app_distr.
    rewrite trimStart_blank_app by (now rewrite forallb_rev). reflexivity.
Qed.

(** ** The clause lists, filter by filter *)

Lemma queryParts_in_order (params : SnTool.Params) :
  queryParts params
  = flat_map (sn_clause params)
      [AssignedTo; State; Priority; ShortDescription].
Proof.
  destruct params as [a st pr sd li].
  cbv [queryParts push_trimmed sn_clause sn_value flat_map
       SnTool.assigned_to SnTool.state SnTool.priority
       SnTool.short_description].
  destruct a as [a|], st as [st|], pr as [pr|], sd as [sd|];
    repeat match goal with
           | |- context [trim ?x] => destruct (trim x)
           end;
    reflexivity.
Qed.

Lemma jqlParts_in_order (a : JiraTool.Args) :
  jqlParts a
  = (str "project=" ++ JiraTool.project a)
    :: flat_map (jira_clause a) [Status; Summary; Label; Assignee; IssueType].
Proof.
  destruct a as [p st su la asg it li].
  destruct st as [[|? ?]|], su as [[|? ?]|], la as [[|? ?]|],
           asg as [[|? ?]|], it as [[|? ?]|];
    reflexivity.
Qed.

(** X1: every clause of the ServiceNow query is the operator of one of the
    four filters followed by the trimmed value of that filter, and the value
    in the clause is never empty and has no white space at either end. *)
Theorem X1_servicenow_values_trimmed :
  forall (params : SnTool.Params) (clause : jsstring),
    In clause (queryParts params) ->
    exists (f : sn_field) (s : jsstring),
      sn_value f params = Some s
      /\ clause = sn_op f ++ trim s
      /\ trim s <> []
      /\ head_ok (trim s) = true
      /\ head_ok (rev (trim s)) = true.
Proof.
  intros params clause Hin.
  rewrite queryParts_in_order in Hin.
  apply in_flat_map in Hin as [f [_ Hf]].
  unfold sn_clause in Hf.
  destruct (sn_value f params) as [s|] eqn:Ev; [|contradiction].
  destruct (trim s) as [|c t] eqn:Et; [contradiction|].
  destruct Hf as [<-|[]].
  exists f, s.
  split; [exact Ev|]. split; [now rewrite Et|].
  split; [rewrite Et; discriminate|].
  split; [apply trim_head_ok | apply trim_last_ok].
Qed.

(** X1 on the query of bob and [disk full], padded with white space. *)
Lemma X1_padded_bob_witness :
  In (str "assigned_to=bob") (queryParts padded_bob)
  /\ exists (f : sn_field) (s : jsstring),
      sn_value f padded_bob = Some s
      /\ str "assigned_to=bob" = sn_op f ++ trim s
      /\ trim s <> []
      /\ head_ok (trim s) = true
      /\ head_ok (rev (trim s)) = true.
Proof.
  assert (H : In (str "assigned_to=bob") (queryParts padded_bob))
    by (left; reflexivity).
  split; [exact H|].
  exact (X1_servicenow_values_trimmed padded_bob (str "assigned_to=bob") H).
Defined.

Lemma push_trimmed_pad (parts : list jsstring) (op l r : jsstring)
  (f : option jsstring) :
  forallb is_white_space l = true -> forallb is_white_space r = true ->
  push_trimmed parts op (pad l r f) = push_trimmed parts op f.
Proof.
  intros Hl Hr. destruct f as [s|]; [|reflexivity].
  unfold pad, push_trimmed. simpl. now rewrite (trim_pad l s r Hl Hr).
Qed.

(** X2: white space put before and after the filter values of a ServiceNow
    call changes neither the clause list nor the query. *)
Theorem X2_servicenow_padding_ignored :
  forall (l r : jsstring) (params : SnTool.Params),
    forallb is_white_space l = true ->
    forallb is_white_space r = true ->
    queryParts (pad_params l r params) = queryParts params
    /\ sysparm_query (pad_params l r params) = sysparm_query params.
Proof.
  intros l r params Hl Hr.
  assert (H : queryParts (pad_params l r params) = queryParts params).
  { unfold queryParts, pad_params. cbn [SnTool.assigned_to SnTool.state
      SnTool.priority SnTool.short_description].
    now rewrite !(push_trimmed_pad _ _ l r _ Hl Hr). }
  split; [exact H|]. unfold sysparm_query. now rewrite H.
Qed.

(** X2 with a tab and a no-break space before, a line feed after. *)
Lemma X2_padding_witness :
  forallb is_white_space [9; 160]%N = true
  /\ forallb is_white_space [10%N] = true
  /\ sysparm_query (pad_params [9; 160]%N [10%N] (bob_disk_full None))
     = str "assigned_to=bob^short_descriptionLIKEdisk full".
Proof.
  split; [reflexivity|]. split; [reflexivity|].
  exact (eq_trans
           (proj2 (X2_servicenow_padding_ignored [9; 160]%N [10%N]
                     (bob_disk_full None) eq_refl eq_refl))
           eq_refl).
Defined.

Lemma join_cons (sep x : jsstring) (l : list jsstring) :
  join sep (x :: l) = x ++ flat_map (fun piece => sep ++ piece) l.
Proof.
  revert x. induction l as [|y l IH]; intros x.
  - simpl. now rewrite app_nil_r.
  - change (join sep (x :: y :: l)) with (x ++ sep ++ join sep (y :: l)).
    rewrite IH. cbn [flat_map]. now rewrite <- app_assoc.
Qed.

(** X3: the Jira query is the project clause followed, for each filter that
    is a non-empty string, by [ AND ] and the clause of that filter, in the
    order status, summary, labels, assignee, issuetype whatever filters are
    given; the ServiceNow query is empty or the clauses of the filters that
    are non-blank after trimming, in the order assigned_to, state, priority,
    short_description, with a caret before each clause but the first. *)
Theorem X3_query_shape :
  (forall a : JiraTool.Args,
      jql a
      = str "project=" ++ JiraTool.project a ++
        flat_map (fun clause => str " AND " ++ clause)
          (jira_clause a Status ++ jira_clause a Summary ++
           jira_clause a Label ++ jira_clause a Assignee ++
           jira_clause a IssueType))
  /\ (forall params : SnTool.Params,
         sysparm_query params
         = match sn_clause params AssignedTo ++ sn_clause params State ++
                 sn_clause params Priority ++
                 sn_clause params ShortDescription with
           | [] => []
           | first :: others =>
               first ++ flat_map (fun clause => str "^" ++ clause) others
           end).
Proof.
  split.
  - intros a. unfold jql. rewrite jqlParts_in_order, join_cons.
    cbn [flat_map]. now rewrite app_nil_r, <- app_assoc.
  - intros params. unfold sysparm_query. rewrite queryParts_in_order.
    cbn [flat_map]. rewrite app_nil_r.
    destruct (sn_clause params AssignedTo ++ sn_clause params State ++
              sn_clause params Priority ++ sn_clause params ShortDescription)
      as [|first others]; [reflexivity|].
    apply join_cons.
Qed.

(** ** Encoding the query *)

Lemma is_unreserved_small c : is_unreserved c = true -> (c < 128)%N.
Proof.
  unfold is_unreserved. intros H.
  repeat (apply orb_true_iff in H as [H|H]).
  - apply andb_true_iff in H as [_ H]. apply N.leb_le in H. lia.
  - apply andb_true_iff in H as [_ H]. apply N.leb_le in H. lia.
  - apply andb_true_iff in H as [_ H]. apply N.leb_le in H. lia.
  - destruct c as [|p]; [discriminate|].
    do 7 (try destruct p as [p|p|]); try discriminate H; reflexivity.
Qed.

Lemma unreserved_not_surrogate c :
  is_unreserved c = true ->
  is_low_surrogate c = false /\ is_high_surrogate c = false.
Proof.
  intros H. apply is_unreserved_small in H.
  unfold is_low_surrogate, is_high_surrogate.
  split; apply andb_false_iff; left; apply N.leb_gt; lia.
Qed.

Lemma option_map_None {A B} (f : A -> B) o :
  option_map f o = None <-> o = None.
Proof. destruct o; simpl; split; congruence. Qed.

Lemma encodeURIComponent_None_upto n :
  forall s, List.length s <= n ->
    (encodeURIComponent s = None <-> isWellFormed s = false).
Proof.
  induction n as [|n IH]; intros s Hn.
  - destruct s; [simpl; split; discriminate | simpl in Hn; lia].
  - destruct s as [|c rest]; [simpl; split; discriminate|].
    simpl in Hn. simpl.
    destruct (is_unreserved c) eqn:Eu.
    + destruct (unreserved_not_surrogate c Eu) as [-> ->].
      rewrite option_map_None. apply IH. lia.
    + destruct (is_low_surrogate c); [tauto|].
      destruct (is_high_surrogate c).
      * destruct rest as [|d rest']; [tauto|].
        destruct (is_low_surrogate d); simpl; [|tauto].
        rewrite option_map_None. apply IH. simpl in Hn. lia.
      * rewrite option_map_None. apply IH. lia.
Qed.

Lemma encodeURIComponent_None s :
  encodeURIComponent s = None <-> isWellFormed s = false.
Proof. apply (encodeURIComponent_None_upto (List.length s)). lia. Qed.

Lemma hex_digit_safe n : (n < 16)%N -> is_unreserved (hex_digit n) = true.
Proof.
  intros H. unfold hex_digit.
  destruct n as [|p]; [reflexivity|].
  do 4 (try destruct p as [p|p|]); try reflexivity; lia.
Qed.

Lemma percent_safe b : (b < 256)%N -> forallb url_safe (percent b) = true.
Proof.
  intros H. unfold percent, url_safe. simpl.
  rewrite !hex_digit_safe; [reflexivity| |].
  - apply N.mod_lt. lia.
  - apply N.Div0.div_lt_upper_bound. lia.
Qed.

Lemma utf8_small cp :
  (cp < 1114112)%N -> Forall (fun b => (b < 256)%N) (utf8 cp).
Proof.
  intros H. unfold utf8.
  destruct (cp <? 128)%N eqn:E1; [apply N.ltb_lt in E1; repeat constructor; lia|].
  destruct (cp <? 2048)%N eqn:E2.
  { apply N.ltb_lt in E2. repeat constructor.
    - assert (cp / 64 < 32)%N by (apply N.Div0.div_lt_upper_bound; lia). lia.
    - assert (cp mod 64 < 64)%N by (apply N.mod_lt; lia). lia. }
  destruct (cp <? 65536)%N eqn:E3.
  { apply N.ltb_lt in E3. repeat constructor.
    - assert (cp / 4096 < 16)%N by (apply N.Div0.div_lt_upper_bound; lia). lia.
    - assert ((cp / 64) mod 64 < 64)%N by (apply N.mod_lt; lia). lia.
    - assert (cp mod 64 < 64)%N by (apply N.mod_lt; lia). lia. }
  repeat constructor.
  - assert (cp / 262144 < 5)%N by (apply N.Div0.div_lt_upper_bound; lia). lia.
  - assert ((cp / 4096) mod 64 < 64)%N by (apply N.mod_lt; lia). lia.
  - assert ((cp / 64) mod 64 < 64)%N by (apply N.mod_lt; lia). lia.
  - assert (cp mod 64 < 64)%N by (apply N.mod_lt; lia). lia.
Qed.

Lemma escape_safe cp :
  (cp < 1114112)%N -> forallb url_safe (escape cp) = true.
Proof.
  intros H. unfold escape.
  pose proof (utf8_small cp H) as Hb.
  induction Hb as [|b l Hb _ IH]; [reflexivity|].
  cbn [flat_map]. rewrite forallb_app, IH, (percent_safe b Hb). reflexivity.
Qed.

Lemma encodeURIComponent_safe_upto n :
  forall s e, List.length s <= n -> code_units s ->
    encodeURIComponent s = Some e -> forallb url_safe e = true.
Proof.
  induction n as [|n IH]; intros s e Hn Hs.
  - destruct s; [|simpl in Hn; lia]. simpl. intros [= <-]. reflexivity.
  - destruct s as [|c rest]; [simpl; intros [= <-]; reflexivity|].
    simpl in Hn. inversion Hs as [|? ? Hc Hrest]; subst. simpl.
    destruct (is_unreserved c) eqn:Eu.
    + destruct (encodeURIComponent rest) as [e'|] eqn:Er; [|discriminate].
      simpl. intros [= <-]. simpl. unfold url_safe at 1. rewrite Eu. simpl.
      apply (IH rest); [lia | exact Hrest | exact Er].
    + destruct (is_low_surrogate c) eqn:El; [discriminate|].
      destruct (is_high_surrogate c) eqn:Eh.
      * destruct rest as [|d rest']; [discriminate|].
        destruct (is_low_surrogate d) eqn:Ed; [|discriminate].
        destruct (encodeURIComponent rest') as [e'|] eqn:Er; [|discriminate].
        simpl. intros [= <-]. rewrite forallb_app.
        inversion Hrest; subst.
        rewrite (IH rest' e'); [|simpl in Hn; lia|assumption|exact Er].
        rewrite escape_safe; [reflexivity|].
        unfold is_high_surrogate in Eh. unfold is_low_surrogate in Ed.
        apply andb_true_iff in Eh as [Eh1 Eh2].
        apply andb_true_iff in Ed as [Ed1 Ed2].
        apply N.leb_le in Eh1, Eh2, Ed1, Ed2. lia.
      * destruct (encodeURIComponent rest) as [e'|] eqn:Er; [|discriminate].
        simpl. intros [= <-]. rewrite forallb_app.
        rewrite (IH rest e'); [|lia|assumption|exact Er].
        rewrite escape_safe; [reflexivity|lia].
Qed.

Lemma encodeURIComponent_safe s e :
  code_units s -> encodeURIComponent s = Some e -> forallb url_safe e = true.
Proof. apply (encodeURIComponent_safe_upto (List.length s)). lia. Qed.

Lemma url_safe_no_delimiter (e : jsstring) (c : code_unit) :
  forallb url_safe e = true -> In c delimiters -> ~ In c e.
Proof.
  intros He Hc Hin.
  pose proof (proj1 (forallb_forall url_safe e) He c Hin) as Hs.
  unfold delimiters in Hc. simpl in Hc.
  repeat (destruct Hc as [<-|Hc]; [discriminate Hs|]). exact Hc.
Qed.

Lemma run_getServiceNowIncidents_URIError (env : Env)
  (params : SnTool.Params) (net : Http.Network SnApi.Data) :
  encodeURIComponent (sysparm_query params) = None ->
  run (getServiceNowIncidents env params) net = (Rejected URIError, []).
Proof.
  intros He. unfold run, getServiceNowIncidents, bind, encodeURI_.
  now rewrite He.
Qed.

Lemma well_formed_encodes (s : jsstring) :
  isWellFormed s = true -> exists e, encodeURIComponent s = Some e.
Proof.
  intros H. destruct (encodeURIComponent s) as [e|] eqn:E; [now exists e|].
  apply encodeURIComponent_None in E. congruence.
Qed.

(** X4: a ticket handler throws a URIError exactly when its query holds a
    surrogate without its partner, and then it has sent nothing; with a
    well-formed query it sends its one request and ends otherwise. *)
Theorem X4_lone_surrogate_sends_nothing :
  (forall (env : Env) (a : JiraTool.Args) (net : Http.Network JiraApi.Data),
      isWellFormed (jql a) = false ->
      run (getJiraIssues env a) net = (Rejected URIError, []))
  /\ (forall (env : Env) (a : JiraTool.Args)
             (net : Http.Network JiraApi.Data),
         isWellFormed (jql a) = true ->
         exists e,
           encodeURIComponent (jql a) = Some e
           /\ snd (run (getJiraIssues env a) net) = [jira_request env a e]
           /\ fst (run (getJiraIssues env a) net) <> Rejected URIError)
  /\ (forall (env : Env) (params : SnTool.Params)
             (net : Http.Network SnApi.Data),
         isWellFormed (sysparm_query params) = false ->
         run (getServiceNowIncidents env params) net
         = (Rejected URIError, []))
  /\ (forall (env : Env) (params : SnTool.Params)
             (net : Http.Network SnApi.Data),
         isWellFormed (sysparm_query params) = true ->
         exists e,
           encodeURIComponent (sysparm_query params) = Some e
           /\ snd (run (getServiceNowIncidents env params) net)
              = [sn_request env params e]
           /\ fst (run (getServiceNowIncidents env params) net)
              <> Rejected URIError).
Proof.
  split; [|split; [|split]].
  - intros env a net H. apply run_getJiraIssues_URIError.
    now apply encodeURIComponent_None.
  - intros env a net H. destruct (well_formed_encodes _ H) as [e He].
    exists e. split; [exact He|].
    rewrite (run_getJiraIssues env a net He). split; [reflexivity|].
    cbn [fst]. destruct (net (jira_request env a e)) as [response|];
      [|discriminate].
    destruct (Http.ok response); [|discriminate].
    destruct (Http.json response); discriminate.
  - intros env params net H. apply run_getServiceNowIncidents_URIError.
    now apply encodeURIComponent_None.
  - intros env params net H. destruct (well_formed_encodes _ H) as [e He].
    exists e. split; [exact He|].
    rewrite (run_getServiceNowIncidents env params net He).
    split; [reflexivity|].
    cbn [fst]. destruct (net (sn_request env params e)) as [response|];
      [|discriminate].
    destruct (Http.ok response); [|discriminate].
    destruct (Http.json response); discriminate.
Qed.

(** X4 on a project that ends in a high surrogate, on a filter that is a low
    surrogate, and on the two well-formed sample queries. *)
Lemma X4_surrogate_witness :
  (isWellFormed (jql lone_surrogate_args) = false
   /\ run (getJiraIssues sample_env lone_surrogate_args) (always no_issues)
      = (Rejected URIError, []))
  /\ (isWellFormed (jql jane_done_args) = true
      /\ exists e,
          encodeURIComponent (jql jane_done_args) = Some e
          /\ snd (run (getJiraIssues sample_env jane_done_args)
                    (always no_issues))
             = [jira_request sample_env jane_done_args e]
          /\ fst (run (getJiraIssues sample_env jane_done_args)
                    (always no_issues))
             <> Rejected URIError)
  /\ (isWellFormed (sysparm_query lone_surrogate_params) = false
      /\ run (getServiceNowIncidents sample_env lone_surrogate_params)
           (always no_incidents)
         = (Rejected URIError, []))
  /\ (isWellFormed (sysparm_query (bob_disk_full None)) = true
      /\ exists e,
          encodeURIComponent (sysparm_query (bob_disk_full None)) = Some e
          /\ snd (run (getServiceNowIncidents sample_env (bob_disk_full None))
                    (always no_incidents))
             = [sn_request sample_env (bob_disk_full None) e]
          /\ fst (run (getServiceNowIncidents sample_env (bob_disk_full None))
                    (always no_incidents))
             <> Rejected URIError).
Proof.
  split; [|split; [|split]]; (split; [reflexivity|]).
  - exact (proj1 X4_lone_surrogate_sends_nothing sample_env
             lone_surrogate_args (always no_issues) eq_refl).
  - exact (proj1 (proj2 X4_lone_surrogate_sends_nothing) sample_env
             jane_done_args (always no_issues) eq_refl).
  - exact (proj1 (proj2 (proj2 X4_lone_surrogate_sends_nothing)) sample_env
             lone_surrogate_params (always no_incidents) eq_refl).
  - exact (proj2 (proj2 (proj2 X4_lone_surrogate_sends_nothing)) sample_env
             (bob_disk_full None) (always no_incidents) eq_refl).
Defined.

(** X5: when a ticket handler returns a result, it has sent exactly its one
    request, the answer to it was a success with a JSON body, and the text
    of the result is not empty. *)
Theorem X5_result_only_from_success :
  (forall (env : Env) (a : JiraTool.Args) (net : Http.Network JiraApi.Data)
          (r : CallToolResult) (log : list Http.Request),
      run (getJiraIssues env a) net = (Fulfilled r, log) ->
      exists e response data t,
        encodeURIComponent (jql a) = Some e
        /\ log = [jira_request env a e]
        /\ net (jira_request env a e) = Some response
        /\ Http.ok response = true
        /\ Http.json response = Some data
        /\ r = {| content := [ {| type := str "text"; text := t |} ] |}
        /\ t <> [])
  /\ (forall (env : Env) (params : SnTool.Params)
             (net : Http.Network SnApi.Data)
             (r : CallToolResult) (log : list Http.Request),
         run (getServiceNowIncidents env params) net = (Fulfilled r, log) ->
         exists e response data t,
           encodeURIComponent (sysparm_query params) = Some e
           /\ log = [sn_request env params e]
           /\ net (sn_request env params e) = Some response
           /\ Http.ok response = true
           /\ Http.json response = Some data
           /\ r = {| content := [ {| type := str "text"; text := t |} ] |}
           /\ t <> []).
Proof.
  split.
  - intros env a net r log H.
    destruct (encodeURIComponent (jql a)) as [e|] eqn:He.
    + rewrite (run_getJiraIssues env a net He) in H.
      destruct (net (jira_request env a e)) as [response|] eqn:Hnet;
        [|discriminate H].
      destruct (Http.ok response) eqn:Hok; [|discriminate H].
      destruct (Http.json response) as [data|] eqn:Hjson; [|discriminate H].
      injection H as <- <-.
      exists e, response, data.
      eexists.
      split; [reflexivity|]. split; [reflexivity|]. split; [exact Hnet|].
      split; [exact Hok|]. split; [exact Hjson|]. split; [reflexivity|].
      apply or_else_nonempty. discriminate.
    + rewrite (run_getJiraIssues_URIError env a net He) in H. discriminate H.
  - intros env params net r log H.
    destruct (encodeURIComponent (sysparm_query params)) as [e|] eqn:He.
    + rewrite (run_getServiceNowIncidents env params net He) in H.
      destruct (net (sn_request env params e)) as [response|] eqn:Hnet;
        [|discriminate H].
      destruct (Http.ok response) eqn:Hok; [|discriminate H].
      destruct (Http.json response) as [data|] eqn:Hjson; [|discriminate H].
      injection H as <- <-.
      exists e, response, data.
      eexists.
      split; [reflexivity|]. split; [reflexivity|]. split; [exact Hnet|].
      split; [exact Hok|]. split; [exact Hjson|]. split; [reflexivity|].
      apply or_else_nonempty. discriminate.
    + rewrite (run_getServiceNowIncidents_URIError env params net He) in H.
      discriminate H.
Qed.

(** X5 on the answers with two issues and with two incidents. *)
Lemma X5_result_witness :
  (run (getJiraIssues sample_env (only_project (str "MCP") None))
     (always two_issues)
   = (Fulfilled
        (
          {| content :=
               [ {| type := str "text";
                    text :=
                      str "#MCP-1: Fix login [Done]" ++
                      [10%N] ++
                      str "#MCP-2: Add logout [To Do]" |} ] |}),
      [jira_request sample_env (only_project (str "MCP") None)
         (str "project%3DMCP")])
   /\ exists e response data t,
       encodeURIComponent (jql (only_project (str "MCP") None)) = Some e
       /\ [jira_request sample_env (only_project (str "MCP") None)
             (str "project%3DMCP")]
          = [jira_request sample_env (only_project (str "MCP") None) e]
       /\ always two_issues
            (jira_request sample_env (only_project (str "MCP") None) e)
          = Some response
       /\ Http.ok response = true
       /\ Http.json response = Some data
       /\
         {| content :=
              [ {| type := str "text";
                   text :=
                     str "#MCP-1: Fix login [Done]" ++
                     [10%N] ++
                     str "#MCP-2: Add logout [To Do]" |} ] |}
          = {| content := [ {| type := str "text"; text := t |} ] |}
       /\ t <> [])
  /\ (run (getServiceNowIncidents sample_env (bob_disk_full None))
        (always two_incidents)
      = (Fulfilled
           (
             {| content :=
                  [ {| type := str "text";
                       text :=
                         str "#INC0010001: disk full" ++
                         [10%N] ++
                         str "#INC0010002: mail down" |} ] |}),
         [sn_request sample_env (bob_disk_full None)
            (str "assigned_to%3Dbob%5Eshort_descriptionLIKEdisk%20full")])
      /\ exists e response data t,
          encodeURIComponent (sysparm_query (bob_disk_full None)) = Some e
          /\ [sn_request sample_env (bob_disk_full None)
                (str "assigned_to%3Dbob%5Eshort_descriptionLIKEdisk%20full")]
             = [sn_request sample_env (bob_disk_full None) e]
          /\ always two_incidents
               (sn_request sample_env (bob_disk_full None) e)
             = Some response
          /\ Http.ok response = true
          /\ Http.json response = Some data
          /\
            {| content :=
                 [ {| type := str "text";
                      text :=
                        str "#INC0010001: disk full" ++
                        [10%N] ++
                        str "#INC0010002: mail down" |} ] |}
             = {| content := [ {| type := str "text"; text := t |} ] |}
          /\ t <> []).
Proof.
  split.
  - split; [reflexivity|].
    exact (proj1 X5_result_only_from_success sample_env
             (only_project (str "MCP") None) (always two_issues) _ _ eq_refl).
  - split; [reflexivity|].
    exact (proj2 X5_result_only_from_success sample_env (bob_disk_full None)
             (always two_incidents) _ _ eq_refl).
Defined.

(** X8: the query of a ticket handler enters the URL through
    [encodeURIComponent]: the encoded query is made of unreserved characters
    and percent signs only, so no filter value puts an ampersand, an equals
    sign, a hash, a question mark, a slash, a space, a double quote or a
    caret into the URL. *)
Theorem X8_encoded_query_has_no_delimiter :
  (forall (env : Env) (a : JiraTool.Args) (net : Http.Network JiraApi.Data)
          (e : jsstring),
      code_units (jql a) ->
      encodeURIComponent (jql a) = Some e ->
      forallb url_safe e = true
      /\ (forall c, In c delimiters -> ~ In c e)
      /\ snd (run (getJiraIssues env a) net)
         = [ {| Http.url :=
                  str "https://" ++ JIRA_DOMAIN env ++
                  str "/rest/api/3/search?jql=" ++ e ++
                  str "&maxResults=" ++
                  Number_toString (nullish (JiraTool.limit a) five);
                Http.headers := jira_headers env |} ])
  /\ (forall (env : Env) (params : SnTool.Params)
             (net : Http.Network SnApi.Data) (e : jsstring),
         code_units (sysparm_query params) ->
         encodeURIComponent (sysparm_query params) = Some e ->
         forallb url_safe e = true
         /\ (forall c, In c delimiters -> ~ In c e)
         /\ snd (run (getServiceNowIncidents env params) net)
            = [ {| Http.url :=
                     str "https://" ++ SN_INSTANCE env ++
                     str ".service-now.com/api/now/table/incident?sysparm_limit=" ++
                     Number_toString (nullish (SnTool.limit params) five) ++
                     str "&sysparm_query=" ++ e;
                   Http.headers := sn_headers env |} ]).
Proof.
  split.
  - intros env a net e Hu He.
    pose proof (encodeURIComponent_safe _ _ Hu He) as Hs.
    split; [exact Hs|]. split; [intros c; now apply url_safe_no_delimiter|].
    now rewrite (run_getJiraIssues env a net He).
  - intros env params net e Hu He.
    pose proof (encodeURIComponent_safe _ _ Hu He) as Hs.
    split; [exact Hs|]. split; [intros c; now apply url_safe_no_delimiter|].
    now rewrite (run_getServiceNowIncidents env params net He).
Qed.

(** X8 on the injected status of the Jira sample and on a ServiceNow state
    with a caret. *)
Lemma X8_encoded_witness :
  (code_units (jql injected_status_args)
   /\ encodeURIComponent (jql injected_status_args)
      = Some (str "project%3DMCP%20AND%20status%3D%22Done%22%20AND%20assignee%3D%22admin%22")
   /\ forall c, In c delimiters ->
        ~ In c (str "project%3DMCP%20AND%20status%3D%22Done%22%20AND%20assignee%3D%22admin%22"))
  /\ (code_units (sysparm_query caret_params)
      /\ encodeURIComponent (sysparm_query caret_params)
         = Some (str "state%3D1%5Epriority%3D1")
      /\ forall c, In c delimiters ->
           ~ In c (str "state%3D1%5Epriority%3D1")).
Proof.
  assert (H1 : code_units (jql injected_status_args))
    by (repeat constructor).
  assert (H2 : code_units (sysparm_query caret_params))
    by (repeat constructor).
  split.
  - split; [exact H1|]. split; [reflexivity|].
    exact (proj1 (proj2 (proj1 X8_encoded_query_has_no_delimiter sample_env
                           injected_status_args (always no_issues) _
                           H1 eq_refl))).
  - split; [exact H2|]. split; [reflexivity|].
    exact (proj1 (proj2 (proj2 X8_encoded_query_has_no_delimiter sample_env
                           caret_params (always no_incidents) _
                           H2 eq_refl))).
Defined.

(** ** The joke handlers on every network *)

Lemma run_getChuckJoke (net : Http.Network Chuck.Data) :
  run getChuckJoke net
  = (match net chuck_request with
     | None => Rejected TypeError
     | Some response =>
         match Http.json response with
         | Some data => Fulfilled (text_result (Chuck.value data))
         | None => Rejected SyntaxError
         end
     end, [chuck_request]).
Proof.
  unfold run, getChuckJoke, bind, fetch. fold chuck_request.
  destruct (net chuck_request) as [response|]; [|reflexivity].
  unfold response_json. destruct (Http.json response); reflexivity.
Qed.

Lemma run_getChuckJokeByCategory (category : jsstring)
  (net : Http.Network Chuck.Data) :
  run (getChuckJokeByCategory category) net
  = (match net (chuck_category_request category) with
     | None => Rejected TypeError
     | Some response =>
         match Http.json response with
         | Some data => Fulfilled (text_result (Chuck.value data))
         | None => Rejected SyntaxError
         end
     end, [chuck_category_request category]).
Proof.
  unfold run, getChuckJokeByCategory, bind, fetch.
  fold (chuck_category_request category).
  destruct (net (chuck_category_request category)) as [response|];
    [|reflexivity].
  unfold response_json. destruct (Http.json response); reflexivity.
Qed.

Lemma run_getChuckCategories (net : Http.Network (list jsstring)) :
  run getChuckCategories net
  = (match net categories_request with
     | None => Rejected TypeError
     | Some response =>
         match Http.json response with
         | Some data => Fulfilled (text_result (join (str ", ") data))
         | None => Rejected SyntaxError
         end
     end, [categories_request]).
Proof.
  unfold run, getChuckCategories, bind, fetch. fold categories_request.
  destruct (net categories_request) as [response|]; [|reflexivity].
  unfold response_json. destruct (Http.json response); reflexivity.
Qed.

Lemma run_getDadJoke (net : Http.Network Dad.Data) :
  run getDadJoke net
  = (match net dad_request with
     | None => Rejected TypeError
     | Some response =>
         match Http.json response with
         | Some data => Fulfilled (text_result (Dad.joke data))
         | None => Rejected SyntaxError
         end
     end, [dad_request]).
Proof.
  unfold run, getDadJoke, bind, fetch. fold dad_request.
  destruct (net dad_request) as [response|]; [|reflexivity].
  unfold response_json. destruct (Http.json response); reflexivity.
Qed.

Lemma run_getYoMommaJoke (net : Http.Network YoMomma.Data) :
  run getYoMommaJoke net
  = (match net yo_momma_request with
     | None => Rejected TypeError
     | Some response =>
         if Http.ok response then
           match Http.json response with
           | Some data =>
               Fulfilled
                 (text_result
                    (str "Category: " ++ YoMomma.category data ++ [10%N] ++
                     str "Joke: " ++ YoMomma.joke data))
           | None => Rejected SyntaxError
           end
         else Rejected (Error (str "Failed to fetch Yo Momma joke"))
     end, [yo_momma_request]).
Proof.
  unfold run, getYoMommaJoke, bind, fetch. fold yo_momma_request.
  destruct (net yo_momma_request) as [response|]; [|reflexivity].
  destruct (Http.ok response); simpl; [|reflexivity].
  unfold response_json. destruct (Http.json response); reflexivity.
Qed.

Lemma same_json {Data : Type} (a b : option (Http.Response Data)) :
  option_map (@Http.json Data) a = option_map (@Http.json Data) b ->
  match a with
  | None => b = None
  | Some r => exists r', b = Some r' /\ Http.json r' = Http.json r
  end.
Proof.
  destruct a as [r|], b as [r'|]; simpl; try discriminate.
  - intros [= H]. exists r'. now split.
  - reflexivity.
Qed.

(** X6: the Chuck Norris tools and the dad-joke tool never look at the
    status of the answer: two networks whose answers parse to the same JSON
    (or both fail, or both answer with a body that is not JSON) give the
    same outcome, so an answer of status 500 is treated as one of status
    200. *)
Theorem X6_joke_tools_ignore_status :
  (forall net net' : Http.Network Chuck.Data,
      option_map (@Http.json _) (net chuck_request)
      = option_map (@Http.json _) (net' chuck_request) ->
      run getChuckJoke net = run getChuckJoke net')
  /\ (forall (category : jsstring) (net net' : Http.Network Chuck.Data),
         option_map (@Http.json _) (net (chuck_category_request category))
         = option_map (@Http.json _) (net' (chuck_category_request category)) ->
         run (getChuckJokeByCategory category) net
         = run (getChuckJokeByCategory category) net')
  /\ (forall net net' : Http.Network (list jsstring),
         option_map (@Http.json _) (net categories_request)
         = option_map (@Http.json _) (net' categories_request) ->
         run getChuckCategories net = run getChuckCategories net')
  /\ (forall net net' : Http.Network Dad.Data,
         option_map (@Http.json _) (net dad_request)
         = option_map (@Http.json _) (net' dad_request) ->
         run getDadJoke net = run getDadJoke net').
Proof.
  split; [|split; [|split]].
  - intros net net' H. rewrite !run_getChuckJoke.
    apply same_json in H.
    destruct (net chuck_request) as [r|].
    + destruct H as [r' [-> ->]]. reflexivity.
    + now rewrite H.
  - intros category net net' H. rewrite !run_getChuckJokeByCategory.
    apply same_json in H.
    destruct (net (chuck_category_request category)) as [r|].
    + destruct H as [r' [-> ->]]. reflexivity.
    + now rewrite H.
  - intros net net' H. rewrite !run_getChuckCategories.
    apply same_json in H.
    destruct (net categories_request) as [r|].
    + destruct H as [r' [-> ->]]. reflexivity.
    + now rewrite H.
  - intros net net' H. rewrite !run_getDadJoke.
    apply same_json in H.
    destruct (net dad_request) as [r|].
    + destruct H as [r' [-> ->]]. reflexivity.
    + now rewrite H.
Qed.

(** X6 on an answer of status 200 and one of status 500 with the same
    JSON. *)
Lemma X6_status_witness :
  option_map (@Http.json _)
    (always {| Http.status := 200;
               Http.text := Http.text chuck_failure;
               Http.json := Http.json chuck_failure |} chuck_request)
  = option_map (@Http.json _) (always chuck_failure chuck_request)
  /\ run getChuckJoke
       (always {| Http.status := 200;
                  Http.text := Http.text chuck_failure;
                  Http.json := Http.json chuck_failure |})
     = run getChuckJoke (always chuck_failure).
Proof.
  split; [reflexivity|].
  exact (proj1 X6_joke_tools_ignore_status _ (always chuck_failure) eq_refl).
Defined.

Lemma join_nil_iff (sep : jsstring) (l : list jsstring) :
  sep <> [] -> (join sep l = [] <-> l = [] \/ l = [[]]).
Proof.
  intros Hsep. split.
  - destruct l as [|x [|y rest]]; [now left| |].
    + simpl. intros ->. now right.
    + change (join sep (x :: y :: rest))
        with (x ++ sep ++ join sep (y :: rest)).
      intros H. apply app_eq_nil in H as [_ H].
      apply app_eq_nil in H as [H _]. contradiction.
  - intros [->| ->]; reflexivity.
Qed.

(** X7: on an answer with a JSON list, whatever its status, the categories
    tool returns the names joined by a comma and a space after its one
    request; the text is the empty string exactly when the list is empty or
    holds one empty name (there is no sentinel text as the ticket tools
    have). *)
Theorem X7_categories_joined :
  forall (net : Http.Network (list jsstring))
         (response : Http.Response (list jsstring)) (data : list jsstring),
    net categories_request = Some response ->
    Http.json response = Some data ->
    run getChuckCategories net
    = (Fulfilled (
      {| content :=
           [ {| type := str "text";
                text := join (str ", ") data |} ] |}), [categories_request])
    /\ (join (str ", ") data = [] <-> data = [] \/ data = [[]]).
Proof.
  intros net response data Hnet Hjson.
  rewrite run_getChuckCategories, Hnet, Hjson. split; [reflexivity|].
  apply join_nil_iff. discriminate.
Qed.

(** X7 on an answer with no category. *)
Lemma X7_no_category_witness :
  run getChuckCategories
    (always {| Http.status := 200;
               Http.text := str "[]";
               Http.json := Some [] |})
  = (Fulfilled (
    {| content :=
         [ {| type := str "text";
              text := [] |} ] |}), [categories_request]).
Proof.
  exact (proj1 (X7_categories_joined
                  (always {| Http.status := 200;
                             Http.text := str "[]";
                             Http.json := Some [] |})
                  _ [] eq_refl eq_refl)).
Defined.

(** ** Where the credentials go *)

Lemma startsWith_app3 (p d q rest : jsstring) :
  startsWith (p ++ d ++ q ++ rest) (p ++ d ++ q) = true.
Proof.
  replace (p ++ d ++ q ++ rest) with ((p ++ d ++ q) ++ rest)
    by (now rewrite <- !app_assoc).
  apply startsWith_app.
Qed.

(** X14: every handler sends at most one request, whatever the network
    answers.  The requests of the five joke tools go to their fixed
    addresses and carry no [Authorization] header; a request of the Jira
    tool goes to the search address of the configured domain with the Jira
    credential, and a request of the ServiceNow tool to the incident table
    of the configured instance with the ServiceNow credential. *)
Theorem X14_credentials_stay_with_their_backend :
  (forall net, snd (run getChuckJoke net) = [chuck_request])
  /\ (forall category net,
         snd (run (getChuckJokeByCategory category) net)
         = [chuck_category_request category])
  /\ (forall net, snd (run getChuckCategories net) = [categories_request])
  /\ (forall net, snd (run getDadJoke net) = [dad_request])
  /\ (forall net, snd (run getYoMommaJoke net) = [yo_momma_request])
  /\ no_credentials
       [chuck_request; categories_request; dad_request; yo_momma_request]
  /\ (forall category, no_credentials [chuck_category_request category])
  /\ (forall (env : Env) (a : JiraTool.Args)
             (net : Http.Network JiraApi.Data),
         List.length (snd (run (getJiraIssues env a) net)) <= 1
         /\ forall request,
             In request (snd (run (getJiraIssues env a) net)) ->
             startsWith (Http.url request)
               (str "https://" ++ JIRA_DOMAIN env ++
                str "/rest/api/3/search?jql=") = true
             /\ Http.headers request
                = [ (str "Accept", str "application/json");
                    (str "Authorization", str "Basic " ++ JIRA_AUTH env);
                    (str "User-Agent", str "mcp-jira-agent/1.0") ])
  /\ (forall (env : Env) (params : SnTool.Params)
             (net : Http.Network SnApi.Data),
         List.length (snd (run (getServiceNowIncidents env params) net)) <= 1
         /\ forall request,
             In request (snd (run (getServiceNowIncidents env params) net)) ->
             startsWith (Http.url request)
               (str "https://" ++ SN_INSTANCE env ++
                str ".service-now.com/api/now/table/incident?sysparm_limit=")
             = true
             /\ Http.headers request
                = [ (str "Accept", str "application/json");
                    (str "Authorization", str "Basic " ++ basicAuth env);
                    (str "User-Agent", str "Mozilla/5.0") ]).
Proof.
  repeat split.
  - intros net. now rewrite run_getChuckJoke.
  - intros category net. now rewrite run_getChuckJokeByCategory.
  - intros net. now rewrite run_getChuckCategories.
  - intros net. now rewrite run_getDadJoke.
  - intros net. now rewrite run_getYoMommaJoke.
  - intros request name value Hr Hh.
    simpl in Hr.
    repeat (destruct Hr as [<-|Hr];
            [simpl in Hh;
             repeat (destruct Hh as [[= <- <-]|Hh]; [discriminate|]);
             contradiction|]).
    contradiction.
  - intros category request name value [<-|[]] Hh. contradiction Hh.
  - destruct (encodeURIComponent (jql a)) as [e|] eqn:He.
    + rewrite (run_getJiraIssues env a net He). simpl. lia.
    + rewrite (run_getJiraIssues_URIError env a net He). simpl. lia.
  - destruct (encodeURIComponent (jql a)) as [e|] eqn:He.
    + rewrite (run_getJiraIssues env a net He) in H.
      destruct H as [<-|[]]. cbn [jira_request Http.url jira_url].
      apply startsWith_app3.
    + rewrite (run_getJiraIssues_URIError env a net He) in H.
      contradiction H.
  - destruct (encodeURIComponent (jql a)) as [e|] eqn:He.
    + rewrite (run_getJiraIssues env a net He) in H.
      destruct H as [<-|[]]. reflexivity.
    + rewrite (run_getJiraIssues_URIError env a net He) in H.
      contradiction H.
  - destruct (encodeURIComponent (sysparm_query params)) as [e|] eqn:He.
    + rewrite (run_getServiceNowIncidents env params net He). simpl. lia.
    + rewrite (run_getServiceNowIncidents_URIError env params net He).
      simpl. lia.
  - destruct (encodeURIComponent (sysparm_query params)) as [e|] eqn:He.
    + rewrite (run_getServiceNowIncidents env params net He) in H.
      destruct H as [<-|[]]. cbn [sn_request Http.url sn_url].
      apply startsWith_app3.
    + rewrite (run_getServiceNowIncidents_URIError env params net He) in H.
      contradiction H.
  - destruct (encodeURIComponent (sysparm_query params)) as [e|] eqn:He.
    + rewrite (run_getServiceNowIncidents env params net He) in H.
      destruct H as [<-|[]]. reflexivity.
    + rewrite (run_getServiceNowIncidents_URIError env params net He) in H.
      contradiction H.
Qed.

(** ** The credentials *)

Example base64_sample :
  Node.base64 (Node.utf8_bytes (str "jane@acme.io:secret")) = str "amFuZUBhY21lLmlvOnNlY3JldA=="
  /\ Node.base64 (Node.utf8_bytes (str "bob:secret")) = str "Ym9iOnNlY3JldA=="
  /\ Node.base64 (Node.utf8_bytes (str "undefined:undefined")) = str "dW5kZWZpbmVkOnVuZGVmaW5lZA=="
  /\ Node.base64 (Node.utf8_bytes [233; 55357; 56832; 55357]%N) = str "w6nwn5iA77+9"
  /\ unbase64 (str "w6nwn5iA77+9") = Some [195;169;240;159;152;128;239;191;189]%N.
Proof. repeat split; reflexivity. Qed.

Lemma b64_inv n :
  (n < 64)%N -> unb64 (Node.b64 n) = Some n /\ (Node.b64 n =? 61)%N = false.
Proof.
  intros H. destruct n as [|p]; [split; reflexivity|].
  do 6 (try destruct p as [p|p|]); try (split; reflexivity); lia.
Qed.

Lemma div_mod_pack m x y :
  (y < m)%N -> ((x * m + y) / m = x /\ (x * m + y) mod m = y)%N.
Proof.
  intros H. split.
  - symmetry. apply (N.div_unique _ m x y); lia.
  - symmetry. apply (N.mod_unique _ m x y); lia.
Qed.

Ltac euclid a m q r :=
  let Hq := fresh "E" q in
  let Hr := fresh "B" r in
  pose proof (N.div_mod a m ltac:(lia)) as Hq;
  pose proof (N.mod_lt a m ltac:(lia)) as Hr;
  set (q := (a / m)%N) in *; set (r := (a mod m)%N) in *;
  clearbody q r.

Lemma sextets a b c :
  (a < 256)%N -> (b < 256)%N -> (c < 256)%N ->
  (a / 4 < 64 /\ (a mod 4) * 16 + b / 16 < 64 /\
   (b mod 16) * 4 + c / 64 < 64 /\ c mod 64 < 64 /\
   (a mod 4) * 16 < 64 /\ (b mod 16) * 4 < 64)%N.
Proof.
  intros Ha Hb Hc.
  euclid a 4%N qa ra. euclid b 16%N qb rb. euclid c 64%N qc rc. lia.
Qed.

Lemma octets a b c :
  (a < 256)%N -> (b < 256)%N -> (c < 256)%N ->
  (a / 4 * 4 + ((a mod 4) * 16 + b / 16) / 16 = a /\
   (((a mod 4) * 16 + b / 16) mod 16) * 16 + ((b mod 16) * 4 + c / 64) / 4 = b /\
   (((b mod 16) * 4 + c / 64) mod 4) * 64 + c mod 64 = c /\
   a / 4 * 4 + ((a mod 4) * 16) / 16 = a /\
   (((a mod 4) * 16 + b / 16) mod 16) * 16 + ((b mod 16) * 4) / 4 = b)%N.
Proof.
  intros Ha Hb Hc.
  euclid a 4%N qa ra. euclid b 16%N qb rb. euclid c 64%N qc rc.
  assert (Hqb : (qb < 16)%N) by lia.
  assert (Hqc : (qc < 4)%N) by lia.
  destruct (div_mod_pack 16 ra qb Hqb) as [-> ->].
  destruct (div_mod_pack 4 rb qc Hqc) as [-> ->].
  rewrite !N.div_mul by lia.
  lia.
Qed.

Lemma base64_roundtrip_upto n :
  forall bytes, List.length bytes <= n ->
    Forall (fun b => (b < 256)%N) bytes ->
    unbase64 (Node.base64 bytes) = Some bytes.
Proof.
  induction n as [|n IH]; intros bytes Hn Hb.
  - destruct bytes; [reflexivity | simpl in Hn; lia].
  - destruct bytes as [|a [|b [|c rest]]]; [reflexivity| | |].
    + inversion Hb as [|? ? Ha _]; subst.
      destruct (sextets a 0 0 Ha ltac:(lia) ltac:(lia)) as (S1 & _ & _ & _ & S5 & _).
      destruct (octets a 0 0 Ha ltac:(lia) ltac:(lia)) as (_ & _ & _ & O4 & _).
      cbn [Node.base64 unbase64].
      rewrite (proj1 (b64_inv _ S1)), (proj1 (b64_inv _ S5)).
      cbn. rewrite O4. reflexivity.
    + inversion Hb as [|? ? Ha Hb']; subst. inversion Hb' as [|? ? Hb0 _]; subst.
      destruct (sextets a b 0 Ha Hb0 ltac:(lia)) as (S1 & S2 & _ & _ & _ & S6).
      destruct (octets a b 0 Ha Hb0 ltac:(lia)) as (O1 & _ & _ & _ & O5).
      cbn [Node.base64 unbase64].
      rewrite (proj1 (b64_inv _ S1)), (proj1 (b64_inv _ S2)).
      cbn [N.eqb Pos.eqb].
      rewrite (proj2 (b64_inv _ S6)), (proj1 (b64_inv _ S6)).
      rewrite O1, O5. reflexivity.
    + inversion Hb as [|? ? Ha Hb']; subst. inversion Hb' as [|? ? Hb0 Hb'']; subst.
      inversion Hb'' as [|? ? Hc0 Hrest]; subst.
      destruct (sextets a b c Ha Hb0 Hc0) as (S1 & S2 & S3 & S4 & _ & _).
      destruct (octets a b c Ha Hb0 Hc0) as (O1 & O2 & O3 & _ & _).
      cbn [Node.base64 unbase64 app].
      rewrite (proj1 (b64_inv _ S1)), (proj1 (b64_inv _ S2)).
      rewrite (proj2 (b64_inv _ S4)).
      rewrite (proj1 (b64_inv _ S3)), (proj1 (b64_inv _ S4)).
      rewrite IH; [|simpl in Hn; lia|exact Hrest].
      rewrite O1, O2, O3. reflexivity.
Qed.

Lemma base64_roundtrip (bytes : list N) :
  Forall (fun b => (b < 256)%N) bytes ->
  unbase64 (Node.base64 bytes) = Some bytes.
Proof. apply (base64_roundtrip_upto (List.length bytes)). lia. Qed.

Lemma utf8_bytes_small_upto n :
  forall s, List.length s <= n -> code_units s ->
    Forall (fun b => (b < 256)%N) (Node.utf8_bytes s).
Proof.
  assert (Hrep : Forall (fun b => (b < 256)%N) Node.replacement)
    by (repeat constructor).
  induction n as [|n IH]; intros s Hn Hs.
  - destruct s; [constructor | simpl in Hn; lia].
  - destruct s as [|c rest]; [constructor|].
    simpl in Hn. inversion Hs as [|? ? Hc Hrest]; subst.
    cbn [Node.utf8_bytes].
    destruct (is_high_surrogate c) eqn:Eh.
    + destruct rest as [|d rest']; [exact Hrep|].
      destruct (is_low_surrogate d) eqn:Ed.
      * apply Forall_app. split.
        -- apply utf8_small.
           unfold is_high_surrogate in Eh. unfold is_low_surrogate in Ed.
           apply andb_true_iff in Eh as [Eh1 Eh2].
           apply andb_true_iff in Ed as [Ed1 Ed2].
           apply N.leb_le in Eh1, Eh2, Ed1, Ed2. lia.
        -- inversion Hrest; subst. apply IH; [simpl in Hn; lia | assumption].
      * apply Forall_app. split; [exact Hrep|]. apply IH; [lia | exact Hrest].
    + destruct (is_low_surrogate c).
      * apply Forall_app. split; [exact Hrep|]. apply IH; [lia | exact Hrest].
      * apply Forall_app. split; [apply utf8_small; lia|].
        apply IH; [lia | exact Hrest].
Qed.

Lemma utf8_bytes_small (s : jsstring) :
  code_units s -> Forall (fun b => (b < 256)%N) (Node.utf8_bytes s).
Proof. apply (utf8_bytes_small_upto (List.length s)). lia. Qed.

Lemma utf8_bytes_ascii (s : jsstring) :
  Forall (fun c => (c < 128)%N) s -> Node.utf8_bytes s = s.
Proof.
  induction 1 as [|c rest Hc _ IH]; [reflexivity|].
  cbn [Node.utf8_bytes].
  assert (Eh : is_high_surrogate c = false).
  { unfold is_high_surrogate. apply andb_false_iff. left.
    apply N.leb_gt. lia. }
  assert (El : is_low_surrogate c = false).
  { unfold is_low_surrogate. apply andb_false_iff. left.
    apply N.leb_gt. lia. }
  rewrite Eh, El, IH. unfold utf8.
  apply N.ltb_lt in Hc. now rewrite Hc.
Qed.

Lemma ascii_code_units (s : jsstring) :
  Forall (fun c => (c < 128)%N) s -> code_units s.
Proof.
  unfold code_units. apply Forall_impl. intros c Hc. lia.
Qed.

Lemma credential_decodes (user secret : jsstring) :
  code_units user -> code_units secret ->
  unbase64 (Node.base64 (Node.utf8_bytes (user ++ str ":" ++ secret)))
  = Some (Node.utf8_bytes (user ++ str ":" ++ secret)).
Proof.
  intros Hu Hs. apply base64_roundtrip, utf8_bytes_small.
  apply Forall_app. split; [exact Hu|].
  apply Forall_app. split; [repeat constructor | exact Hs].
Qed.

Lemma ascii_credential_decodes (user secret : jsstring) :
  Forall (fun c => (c < 128)%N) user ->
  Forall (fun c => (c < 128)%N) secret ->
  unbase64 (Node.base64 (Node.utf8_bytes (user ++ str ":" ++ secret)))
  = Some (user ++ str ":" ++ secret).
Proof.
  intros Hu Hs.
  assert (H : Forall (fun c => (c < 128)%N) (user ++ str ":" ++ secret)).
  { apply Forall_app. split; [exact Hu|].
    apply Forall_app. split; [repeat constructor | exact Hs]. }
  rewrite (utf8_bytes_ascii _ H).
  apply base64_roundtrip.
  rewrite <- (utf8_bytes_ascii _ H).
  apply utf8_bytes_small, ascii_code_units, H.
Qed.

(** X10: a variable that is missing from the environment does not stop the
    start-up: the domain or instance becomes the text [undefined] in the
    address of every request, and a missing user name and secret give the
    credential of [undefined:undefined]. *)
Theorem X10_missing_variables_become_undefined :
  (forall (penv : ProcessEnv.t) (a : JiraTool.Args)
          (net : Http.Network JiraApi.Data) (e : jsstring),
      ProcessEnv.JIRA_DOMAIN penv = None ->
      encodeURIComponent (jql a) = Some e ->
      snd (run (getJiraIssues (load_env penv) a) net)
      = [ {| Http.url :=
               str "https://undefined/rest/api/3/search?jql=" ++ e ++
               str "&maxResults=" ++
               Number_toString (nullish (JiraTool.limit a) five);
             Http.headers := jira_headers (load_env penv) |} ])
  /\ (forall (penv : ProcessEnv.t) (params : SnTool.Params)
             (net : Http.Network SnApi.Data) (e : jsstring),
         ProcessEnv.SN_INSTANCE penv = None ->
         encodeURIComponent (sysparm_query params) = Some e ->
         snd (run (getServiceNowIncidents (load_env penv) params) net)
         = [ {| Http.url :=
                  str "https://undefined.service-now.com/api/now/table/incident?sysparm_limit=" ++
                  Number_toString (nullish (SnTool.limit params) five) ++
                  str "&sysparm_query=" ++ e;
                Http.headers := sn_headers (load_env penv) |} ])
  /\ (forall penv : ProcessEnv.t,
         ProcessEnv.JIRA_EMAIL penv = None ->
         ProcessEnv.JIRA_API_TOKEN penv = None ->
         JIRA_AUTH (load_env penv) = str "dW5kZWZpbmVkOnVuZGVmaW5lZA==")
  /\ (forall penv : ProcessEnv.t,
         ProcessEnv.SN_USERNAME penv = None ->
         ProcessEnv.SN_PASSWORD penv = None ->
         basicAuth (load_env penv) = str "dW5kZWZpbmVkOnVuZGVmaW5lZA==").
Proof.
  split; [|split; [|split]].
  - intros penv a net e Hd He.
    rewrite (run_getJiraIssues (load_env penv) a net He).
    unfold jira_request, jira_url, load_env. cbn [snd JIRA_DOMAIN].
    rewrite Hd. reflexivity.
  - intros penv params net e Hi He.
    rewrite (run_getServiceNowIncidents (load_env penv) params net He).
    unfold sn_request, sn_url, load_env. cbn [snd SN_INSTANCE].
    rewrite Hi. reflexivity.
  - intros penv H1 H2. unfold load_env. cbn [JIRA_AUTH].
    rewrite H1, H2. reflexivity.
  - intros penv H1 H2. unfold load_env. cbn [basicAuth].
    rewrite H1, H2. reflexivity.
Qed.

(** X10 on an environment with no variable at all. *)
Lemma X10_empty_environment_witness :
  snd (run (getJiraIssues (load_env empty_process_env)
              (only_project (str "MCP") None)) (always no_issues))
  = [ {| Http.url :=
           str "https://undefined/rest/api/3/search?jql=project%3DMCP&maxResults=5";
         Http.headers :=
           [ (str "Accept", str "application/json");
             (str "Authorization",
              str "Basic dW5kZWZpbmVkOnVuZGVmaW5lZA==");
             (str "User-Agent", str "mcp-jira-agent/1.0") ] |} ]
  /\ snd (run (getServiceNowIncidents (load_env empty_process_env)
                 (no_filters None)) (always no_incidents))
     = [ {| Http.url :=
              str "https://undefined.service-now.com/api/now/table/incident?sysparm_limit=5&sysparm_query=";
            Http.headers :=
              [ (str "Accept", str "application/json");
                (str "Authorization",
                 str "Basic dW5kZWZpbmVkOnVuZGVmaW5lZA==");
                (str "User-Agent", str "Mozilla/5.0") ] |} ]
  /\ JIRA_AUTH (load_env empty_process_env)
     = str "dW5kZWZpbmVkOnVuZGVmaW5lZA=="
  /\ basicAuth (load_env empty_process_env)
     = str "dW5kZWZpbmVkOnVuZGVmaW5lZA==".
Proof.
  split; [|split; [|split]].
  - exact (proj1 X10_missing_variables_become_undefined empty_process_env
             (only_project (str "MCP") None) (always no_issues)
             (str "project%3DMCP") eq_refl eq_refl).
  - exact (proj1 (proj2 X10_missing_variables_become_undefined)
             empty_process_env (no_filters None) (always no_incidents)
             [] eq_refl eq_refl).
  - exact (proj1 (proj2 (proj2 X10_missing_variables_become_undefined))
             empty_process_env eq_refl eq_refl).
  - exact (proj2 (proj2 (proj2 X10_missing_variables_become_undefined))
             empty_process_env eq_refl eq_refl).
Defined.

(** X11: the credential computed at start-up decodes, as base64, to the
    UTF-8 octets of the user name, a colon and the secret; when both are
    ASCII the decoded octets are those very characters. *)
Theorem X11_credentials_decode :
  (forall penv : ProcessEnv.t,
      code_units (interp (ProcessEnv.JIRA_EMAIL penv)) ->
      code_units (interp (ProcessEnv.JIRA_API_TOKEN penv)) ->
      unbase64 (JIRA_AUTH (load_env penv))
      = Some (Node.utf8_bytes
                (interp (ProcessEnv.JIRA_EMAIL penv) ++ str ":" ++
                 interp (ProcessEnv.JIRA_API_TOKEN penv))))
  /\ (forall penv : ProcessEnv.t,
         code_units (interp (ProcessEnv.SN_USERNAME penv)) ->
         code_units (interp (ProcessEnv.SN_PASSWORD penv)) ->
         unbase64 (basicAuth (load_env penv))
         = Some (Node.utf8_bytes
                   (interp (ProcessEnv.SN_USERNAME penv) ++ str ":" ++
                    interp (ProcessEnv.SN_PASSWORD penv))))
  /\ (forall (penv : ProcessEnv.t) (email token : jsstring),
         ProcessEnv.JIRA_EMAIL penv = Some email ->
         ProcessEnv.JIRA_API_TOKEN penv = Some token ->
         Forall (fun c => (c < 128)%N) email ->
         Forall (fun c => (c < 128)%N) token ->
         unbase64 (JIRA_AUTH (load_env penv))
         = Some (email ++ str ":" ++ token))
  /\ (forall (penv : ProcessEnv.t) (user password : jsstring),
         ProcessEnv.SN_USERNAME penv = Some user ->
         ProcessEnv.SN_PASSWORD penv = Some password ->
         Forall (fun c => (c < 128)%N) user ->
         Forall (fun c => (c < 128)%N) password ->
         unbase64 (basicAuth (load_env penv))
         = Some (user ++ str ":" ++ password)).
Proof.
  split; [|split; [|split]].
  - intros penv Hu Hs. apply credential_decodes; assumption.
  - intros penv Hu Hs. apply credential_decodes; assumption.
  - intros penv email token He Ht Hu Hs. unfold load_env. cbn [JIRA_AUTH].
    rewrite He, Ht. apply ascii_credential_decodes; assumption.
  - intros penv user password Hn Hp Hu Hs. unfold load_env. cbn [basicAuth].
    rewrite Hn, Hp. apply ascii_credential_decodes; assumption.
Qed.

(** X11 on the sample environment. *)
Lemma X11_sample_credentials_witness :
  JIRA_AUTH (load_env sample_process_env) = str "amFuZUBhY21lLmlvOnNlY3JldA=="
  /\ unbase64 (JIRA_AUTH (load_env sample_process_env))
     = Some (str "jane@acme.io:secret")
  /\ basicAuth (load_env sample_process_env) = str "Ym9iOnNlY3JldA=="
  /\ unbase64 (basicAuth (load_env sample_process_env))
     = Some (str "bob:secret")
  /\ unbase64 (JIRA_AUTH (load_env sample_process_env))
     = Some (Node.utf8_bytes (str "jane@acme.io:secret"))
  /\ unbase64 (basicAuth (load_env sample_process_env))
     = Some (Node.utf8_bytes (str "bob:secret")).
Proof.
  split; [reflexivity|]. split.
  - exact (proj1 (proj2 (proj2 X11_credentials_decode)) sample_process_env
             (str "jane@acme.io") (str "secret") eq_refl eq_refl
             ltac:(repeat constructor) ltac:(repeat constructor)).
  - split; [reflexivity|]. split.
    + exact (proj2 (proj2 (proj2 X11_credentials_decode)) sample_process_env
               (str "bob") (str "secret") eq_refl eq_refl
               ltac:(repeat constructor) ltac:(repeat constructor)).
    + split.
      * exact (proj1 X11_credentials_decode sample_process_env
                 ltac:(repeat constructor) ltac:(repeat constructor)).
      * exact (proj1 (proj2 X11_credentials_decode) sample_process_env
                 ltac:(repeat constructor) ltac:(repeat constructor)).
Defined.

(** ** The ServiceNow query, split at its carets *)

Lemma split_from_char_length c cur s :
  List.length (split_from [c] 0 cur s) = 1 + count c s.
Proof.
  revert cur. induction s as [|x s IH]; intros cur; [reflexivity|].
  cbn [split_from startsWith List.length pred]. unfold count. cbn [filter].
  destruct (c =? x)%N; cbn [andb List.length]; rewrite IH; reflexivity.
Qed.

Lemma split_from_char_clean c cur s :
  count c s = 0 -> split_from [c] 0 cur s = [rev cur ++ s].
Proof.
  revert cur. induction s as [|x s IH]; intros cur H.
  - simpl. now rewrite app_nil_r.
  - unfold count in H. cbn [filter] in H.
    cbn [split_from startsWith List.length pred].
    destruct (c =? x)%N; [discriminate H|]. cbn [andb].
    rewrite IH by exact H. simpl. now rewrite <- app_assoc.
Qed.

Lemma split_from_char_app c cur x rest :
  count c x = 0 ->
  split_from [c] 0 cur (x ++ c :: rest)
  = (rev cur ++ x) :: split_from [c] 0 [] rest.
Proof.
  revert cur. induction x as [|y x IH]; intros cur H.
  - cbn [app split_from startsWith List.length pred].
    rewrite N.eqb_refl. cbn [andb]. now rewrite app_nil_r.
  - unfold count in H. cbn [filter] in H.
    cbn [app split_from startsWith List.length pred].
    destruct (c =? y)%N; [discriminate H|]. cbn [andb].
    rewrite IH by exact H. simpl. now rewrite <- app_assoc.
Qed.

Lemma split_join_char c x l :
  Forall (fun piece => count c piece = 0) (x :: l) ->
  split (join [c] (x :: l)) [c] = x :: l.
Proof.
  revert x. induction l as [|y l IH]; intros x H.
  - inversion H; subst. unfold split. simpl.
    now rewrite split_from_char_clean.
  - inversion H as [|? ? Hx Hl]; subst.
    change (join [c] (x :: y :: l)) with (x ++ c :: join [c] (y :: l)).
    unfold split. rewrite split_from_char_app by exact Hx.
    fold (split (join [c] (y :: l)) [c]). rewrite IH by exact Hl. reflexivity.
Qed.

Lemma count_app c s t : count c (s ++ t) = count c s + count c t.
Proof. unfold count. now rewrite filter_app, length_app. Qed.

Lemma count_join c x l :
  count c (join [c] (x :: l))
  = List.length l + list_sum (map (count c) (x :: l)).
Proof.
  revert x. induction l as [|y l IH]; intros x.
  - simpl. lia.
  - change (join [c] (x :: y :: l)) with (x ++ [c] ++ join [c] (y :: l)).
    rewrite !count_app, IH. unfold count at 2. simpl. rewrite N.eqb_refl.
    simpl. lia.
Qed.

Lemma sn_op_no_caret (f : sn_field) : count 94%N (sn_op f) = 0.
Proof. destruct f; reflexivity. Qed.

Lemma queryParts_carets (params : SnTool.Params) :
  (forall f s, sn_value f params = Some s -> count 94%N (trim s) = 0) ->
  Forall (fun piece => count 94%N piece = 0) (queryParts params).
Proof.
  intros H. apply Forall_forall. intros clause Hin.
  rewrite queryParts_in_order in Hin.
  apply in_flat_map in Hin as [f [_ Hf]]. unfold sn_clause in Hf.
  destruct (sn_value f params) as [s|] eqn:Ev; [|contradiction].
  destruct (truthy (trim s)); [|contradiction].
  destruct Hf as [<-|[]].
  rewrite count_app, sn_op_no_caret. exact (H f s Ev).
Qed.

(** X13: a ServiceNow query with at least one clause splits at its carets
    into as many pieces as it has clauses plus one piece for every caret
    inside a clause; when no trimmed filter value holds a caret, the pieces
    are the clauses themselves. *)
Theorem X13_servicenow_query_splits_back :
  (forall params : SnTool.Params,
      queryParts params <> [] ->
      (forall f s, sn_value f params = Some s -> count 94%N (trim s) = 0) ->
      split (sysparm_query params) (str "^") = queryParts params)
  /\ (forall params : SnTool.Params,
         queryParts params <> [] ->
         List.length (split (sysparm_query params) (str "^"))
         = List.length (queryParts params)
           + list_sum (map (count 94%N) (queryParts params))).
Proof.
  split.
  - intros params Hne Hv. pose proof (queryParts_carets params Hv) as Hc.
    unfold sysparm_query. change (str "^") with [94%N].
    destruct (queryParts params) as [|x l]; [contradiction|].
    now apply split_join_char.
  - intros params Hne. unfold sysparm_query, split.
    change (str "^") with [94%N].
    rewrite split_from_char_length.
    destruct (queryParts params) as [|x l]; [contradiction|].
    rewrite count_join. cbn [List.length]. lia.
Qed.

(** X13 on the query of bob and [disk full], which splits back, and on a
    state that holds a caret, which makes two pieces of one clause. *)
Lemma X13_split_witness :
  (queryParts (bob_disk_full None) <> []
   /\ (forall f s,
          sn_value f (bob_disk_full None) = Some s -> count 94%N (trim s) = 0)
   /\ split (sysparm_query (bob_disk_full None)) (str "^")
      = [str "assigned_to=bob"; str "short_descriptionLIKEdisk full"])
  /\ (queryParts caret_params = [str "state=1^priority=1"]
      /\ List.length (split (sysparm_query caret_params) (str "^")) = 2).
Proof.
  assert (H1 : queryParts (bob_disk_full None) <> []) by discriminate.
  assert (H2 : forall f s,
             sn_value f (bob_disk_full None) = Some s ->
             count 94%N (trim s) = 0).
  { intros f s. destruct f; simpl; intros [= <-]; reflexivity. }
  split.
  - split; [exact H1|]. split; [exact H2|].
    exact (proj1 X13_servicenow_query_splits_back (bob_disk_full None) H1 H2).
  - split; [reflexivity|].
    exact (proj2 X13_servicenow_query_splits_back caret_params
             ltac:(discriminate)).
Defined.

(** ** The route handlers *)

(** X12: no error escapes the handler of [POST /mcp].  When the transport
    throws before the head of the response was sent, the response is the
    status 500 with the JSON-RPC error -32603; when it throws after the head
    was sent, and when it does not throw, the response is left as the
    transport left it.  [GET /mcp] and [DELETE /mcp] answer a fresh response
    with the status 405 and the JSON-RPC error -32000 and never reach the
    transport. *)
Theorem X12_post_answers_a_failing_transport :
  (forall (Req : Type) (transport : Express.Transport Req) (req : Req)
          (res : Express.Res),
      fst (Express.post_mcp transport req res) = false)
  /\ (forall (Req : Type) (transport : Express.Transport Req) (req : Req)
             (res res' : Express.Res),
         transport req res = (true, res') ->
         Express.headersSent res' = false ->
         snd (Express.post_mcp transport req res)
         = {| Express.statusCode := 500;
              Express.headersSent := true;
              Express.body :=
                Some (Express.JsonRpcError (-32603)
                        (str "Internal server error")) |})
  /\ (forall (Req : Type) (transport : Express.Transport Req) (req : Req)
             (res res' : Express.Res) (threw : bool),
         transport req res = (threw, res') ->
         threw = false \/ Express.headersSent res' = true ->
         snd (Express.post_mcp transport req res) = res')
  /\ (forall (Req : Type) (req : Req) (res : Express.Res),
         Express.headersSent res = false ->
         Express.get_mcp req res
         = (false,
            {| Express.statusCode := 405;
               Express.headersSent := true;
               Express.body :=
                 Some (Express.JsonRpcError (-32000)
                         (str "Method not allowed.")) |})
         /\ Express.delete_mcp req res = Express.get_mcp req res).
Proof.
  split; [|split; [|split]].
  - intros Req transport req res. unfold Express.post_mcp.
    destruct (transport req res) as [[|] res']; [|reflexivity].
    unfold Express.json, Express.status. cbn [Express.headersSent].
    destruct (Express.headersSent res'); reflexivity.
  - intros Req transport req res res' Ht Hh. unfold Express.post_mcp.
    rewrite Ht. unfold Express.json, Express.status.
    cbn [Express.headersSent]. rewrite Hh. reflexivity.
  - intros Req transport req res res' threw Ht H. unfold Express.post_mcp.
    rewrite Ht. destruct threw; [|reflexivity].
    destruct H as [H|H]; [discriminate H|]. rewrite H. reflexivity.
  - intros Req req res Hh.
    unfold Express.delete_mcp, Express.get_mcp, Express.method_not_allowed,
      Express.json, Express.status.
    cbn [Express.headersSent]. rewrite Hh. split; reflexivity.
Qed.

(** X12 on a transport that throws at once, on one that throws after it has
    answered, and on a fresh response for [GET /mcp]. *)
Lemma X12_transport_witness :
  Express.post_mcp failing_transport tt fresh_res
  = (false,
     {| Express.statusCode := 500;
        Express.headersSent := true;
        Express.body :=
          Some (Express.JsonRpcError (-32603) (str "Internal server error"))
     |})
  /\ Express.post_mcp late_failing_transport tt fresh_res
     = (false,
        {| Express.statusCode := 200;
           Express.headersSent := true;
           Express.body := Some (Express.Written (str "event: message")) |})
  /\ Express.get_mcp tt fresh_res
     = (false,
        {| Express.statusCode := 405;
           Express.headersSent := true;
           Express.body :=
             Some (Express.JsonRpcError (-32000) (str "Method not allowed."))
        |}).
Proof.
  split; [|split].
  - apply injective_projections.
    + exact (proj1 X12_post_answers_a_failing_transport unit
               failing_transport tt fresh_res).
    + exact (proj1 (proj2 X12_post_answers_a_failing_transport) unit
               failing_transport tt fresh_res fresh_res eq_refl eq_refl).
  - apply injective_projections.
    + exact (proj1 X12_post_answers_a_failing_transport unit
               late_failing_transport tt fresh_res).
    + exact (proj1 (proj2 (proj2 X12_post_answers_a_failing_transport)) unit
               late_failing_transport tt fresh_res _ true eq_refl
               (or_intror eq_refl)).
  - exact (proj1 (proj2 (proj2 (proj2 X12_post_answers_a_failing_transport))
                   unit tt fresh_res eq_refl)).
Defined.

(** X14 on the requests of the two ticket handlers in the sample
    environment. *)
Lemma X14_requests_witness :
  (In (jira_request sample_env jane_done_args
         (str "project%3DMCP%20AND%20status%3D%22Done%22%20AND%20assignee%3D%22jane%22"))
      (snd (run (getJiraIssues sample_env jane_done_args) (always no_issues)))
   /\ Http.headers
        (jira_request sample_env jane_done_args
           (str "project%3DMCP%20AND%20status%3D%22Done%22%20AND%20assignee%3D%22jane%22"))
      = [ (str "Accept", str "application/json");
          (str "Authorization", str "Basic amFuZUBhY21lLmlvOnNlY3JldA==");
          (str "User-Agent", str "mcp-jira-agent/1.0") ])
  /\ (In (sn_request sample_env (bob_disk_full None)
            (str "assigned_to%3Dbob%5Eshort_descriptionLIKEdisk%20full"))
         (snd (run (getServiceNowIncidents sample_env (bob_disk_full None))
                 (always no_incidents)))
      /\ Http.headers
           (sn_request sample_env (bob_disk_full None)
              (str "assigned_to%3Dbob%5Eshort_descriptionLIKEdisk%20full"))
         = [ (str "Accept", str "application/json");
             (str "Authorization", str "Basic Ym9iOnNlY3JldA==");
             (str "User-Agent", str "Mozilla/5.0") ]).
Proof.
  assert (H1 : In (jira_request sample_env jane_done_args
                     (str "project%3DMCP%20AND%20status%3D%22Done%22%20AND%20assignee%3D%22jane%22"))
                 (snd (run (getJiraIssues sample_env jane_done_args)
                         (always no_issues))))
    by (left; reflexivity).
  assert (H2 : In (sn_request sample_env (bob_disk_full None)
                     (str "assigned_to%3Dbob%5Eshort_descriptionLIKEdisk%20full"))
                 (snd (run (getServiceNowIncidents sample_env
                              (bob_disk_full None)) (always no_incidents))))
    by (left; reflexivity).
  pose proof X14_credentials_stay_with_their_backend
    as (_ & _ & _ & _ & _ & _ & _ & Hj & Hs).
  split.
  - split; [exact H1|].
    exact (proj2 (proj2 (Hj sample_env jane_done_args (always no_issues))
                    _ H1)).
  - split; [exact H2|].
    exact (proj2 (proj2 (Hs sample_env (bob_disk_full None)
                           (always no_incidents)) _ H2)).
Defined.

(** ** Failures of the one request *)

(** X15: no handler catches the failure of its request or of the parsing of
    the answer: a request that fails makes the handler reject with a
    TypeError, an answer that is not JSON with a SyntaxError (for the ticket
    tools and the yo-momma tool only when the status is a success, for the
    other joke tools whatever the status); the handler has then sent its one
    request and does not try again. *)
Theorem X15_failures_are_not_caught :
  fails_uncaught getChuckJoke chuck_request false
  /\ (forall category,
         fails_uncaught (getChuckJokeByCategory category)
           (chuck_category_request category) false)
  /\ fails_uncaught getChuckCategories categories_request false
  /\ fails_uncaught getDadJoke dad_request false
  /\ fails_uncaught getYoMommaJoke yo_momma_request true
  /\ (forall env a e,
         encodeURIComponent (jql a) = Some e ->
         fails_uncaught (getJiraIssues env a) (jira_request env a e) true)
  /\ (forall env params e,
         encodeURIComponent (sysparm_query params) = Some e ->
         fails_uncaught (getServiceNowIncidents env params)
           (sn_request env params e) true).
Proof.
  repeat split.
  - intros H. now rewrite run_getChuckJoke, H.
  - intros response Hnet _ Hjson.
    now rewrite run_getChuckJoke, Hnet, Hjson.
  - intros H. now rewrite run_getChuckJokeByCategory, H.
  - intros response Hnet _ Hjson.
    now rewrite run_getChuckJokeByCategory, Hnet, Hjson.
  - intros H. now rewrite run_getChuckCategories, H.
  - intros response Hnet _ Hjson.
    now rewrite run_getChuckCategories, Hnet, Hjson.
  - intros H. now rewrite run_getDadJoke, H.
  - intros response Hnet _ Hjson.
    now rewrite run_getDadJoke, Hnet, Hjson.
  - intros H. now rewrite run_getYoMommaJoke, H.
  - intros response Hnet Hok Hjson.
    now rewrite run_getYoMommaJoke, Hnet, (Hok eq_refl), Hjson.
  - intros Hnet. now rewrite (run_getJiraIssues env a net H), Hnet.
  - intros response Hnet Hok Hjson.
    now rewrite (run_getJiraIssues env a net H), Hnet, (Hok eq_refl), Hjson.
  - intros Hnet.
    now rewrite (run_getServiceNowIncidents env params net H), Hnet.
  - intros response Hnet Hok Hjson.
    now rewrite (run_getServiceNowIncidents env params net H), Hnet,
      (Hok eq_refl), Hjson.
Qed.

(** X15 on a network that cannot be reached and on an answer that is an
    HTML page. *)
Lemma X15_failure_witness :
  run (getJiraIssues sample_env (only_project (str "MCP") None)) unreachable
  = (Rejected TypeError,
     [jira_request sample_env (only_project (str "MCP") None)
        (str "project%3DMCP")])
  /\ run (getServiceNowIncidents sample_env (no_filters None))
       (always html_page)
     = (Rejected SyntaxError, [sn_request sample_env (no_filters None) []])
  /\ run getDadJoke unreachable = (Rejected TypeError, [dad_request]).
Proof.
  pose proof X15_failures_are_not_caught as (_ & _ & _ & Hd & _ & Hj & Hs).
  split; [|split].
  - exact (proj1 (Hj sample_env (only_project (str "MCP") None)
                    (str "project%3DMCP") eq_refl unreachable) eq_refl).
  - exact (proj2 (Hs sample_env (no_filters None) [] eq_refl
                    (always html_page))
             html_page eq_refl (fun _ => eq_refl) eq_refl).
  - exact (proj1 (Hd unreachable) eq_refl).
Defined.

(** ** The lines of a result *)

(** X16: the text a ticket handler returns for a list that is not empty
    splits at its line feeds into one line for each issue or incident, in
    the order of the answer, provided no line holds a line feed of its
    own. *)
Theorem X16_one_line_per_record :
  (forall (env : Env) (a : JiraTool.Args) (net : Http.Network JiraApi.Data)
          (e : jsstring) (response : Http.Response JiraApi.Data)
          (data : JiraApi.Data),
      encodeURIComponent (jql a) = Some e ->
      net (jira_request env a e) = Some response ->
      Http.ok response = true ->
      Http.json response = Some data ->
      JiraApi.issues data <> [] ->
      Forall (fun i => count 10%N (jira_line i) = 0) (JiraApi.issues data) ->
      exists t,
        fst (run (getJiraIssues env a) net) = Fulfilled (
          {| content :=
               [ {| type := str "text";
                    text := t |} ] |})
        /\ split t [10%N] = map jira_line (JiraApi.issues data))
  /\ (forall (env : Env) (params : SnTool.Params)
             (net : Http.Network SnApi.Data) (e : jsstring)
             (response : Http.Response SnApi.Data) (data : SnApi.Data),
         encodeURIComponent (sysparm_query params) = Some e ->
         net (sn_request env params e) = Some response ->
         Http.ok response = true ->
         Http.json response = Some data ->
         SnApi.result data <> [] ->
         Forall (fun i => count 10%N (incident_line i) = 0)
           (SnApi.result data) ->
         exists t,
           fst (run (getServiceNowIncidents env params) net)
           = Fulfilled (
             {| content :=
                  [ {| type := str "text";
                       text := t |} ] |})
           /\ split t [10%N] = map incident_line (SnApi.result data)).
Proof.
  split.
  - intros env a net e response data He Hnet Hok Hjson Hne Hl.
    rewrite (run_getJiraIssues env a net He), Hnet, Hok, Hjson.
    eexists. split; [reflexivity|].
    destruct (JiraApi.issues data) as [|i rest]; [contradiction|].
    rewrite or_else_truthy by (apply join_cons_nonempty; discriminate).
    cbn [map]. apply split_join_char.
    change (jira_line i :: map jira_line rest) with (map jira_line (i :: rest)).
    apply Forall_map. exact Hl.
  - intros env params net e response data He Hnet Hok Hjson Hne Hl.
    rewrite (run_getServiceNowIncidents env params net He), Hnet, Hok, Hjson.
    eexists. split; [reflexivity|].
    destruct (SnApi.result data) as [|i rest]; [contradiction|].
    rewrite or_else_truthy by (apply join_cons_nonempty; discriminate).
    cbn [map]. apply split_join_char.
    change (incident_line i :: map incident_line rest)
      with (map incident_line (i :: rest)).
    apply Forall_map. exact Hl.
Qed.

(** X16 on the answers with two issues and with two incidents. *)
Lemma X16_lines_witness :
  (JiraApi.issues two_issues_data <> []
   /\ Forall (fun i => count 10%N (jira_line i) = 0)
        (JiraApi.issues two_issues_data)
   /\ exists t,
       fst (run (getJiraIssues sample_env (only_project (str "MCP") None))
              (always two_issues))
       = Fulfilled ({| content := [ {| type := str "text"; text := t |} ] |})
       /\ split t [10%N]
          = [str "#MCP-1: Fix login [Done]";
             str "#MCP-2: Add logout [To Do]"])
  /\ (SnApi.result two_incidents_data <> []
      /\ Forall (fun i => count 10%N (incident_line i) = 0)
           (SnApi.result two_incidents_data)
      /\ exists t,
          fst (run (getServiceNowIncidents sample_env (bob_disk_full None))
                 (always two_incidents))
          = Fulfilled ({| content := [ {| type := str "text"; text := t |} ] |})
          /\ split t [10%N]
             = [str "#INC0010001: disk full"; str "#INC0010002: mail down"]).
Proof.
  assert (H1 : JiraApi.issues two_issues_data <> []) by discriminate.
  assert (H2 : Forall (fun i => count 10%N (jira_line i) = 0)
                 (JiraApi.issues two_issues_data))
    by (repeat constructor).
  assert (H3 : SnApi.result two_incidents_data <> []) by discriminate.
  assert (H4 : Forall (fun i => count 10%N (incident_line i) = 0)
                 (SnApi.result two_incidents_data))
    by (repeat constructor).
  split.
  - split; [exact H1|]. split; [exact H2|].
    exact (proj1 X16_one_line_per_record sample_env
             (only_project (str "MCP") None) (always two_issues)
             (str "project%3DMCP") two_issues two_issues_data
             eq_refl eq_refl eq_refl eq_refl H1 H2).
  - split; [exact H3|]. split; [exact H4|].
    exact (proj2 X16_one_line_per_record sample_env (bob_disk_full None)
             (always two_incidents)
             (str "assigned_to%3Dbob%5Eshort_descriptionLIKEdisk%20full")
             two_incidents two_incidents_data
             eq_refl eq_refl eq_refl eq_refl H3 H4).
Defined.

(** ** The priority clause in its place *)

(** C3, as the code has it: the schema takes the priority argument.  A
    priority that is non-blank after trimming has one clause in the clause
    list, the trimmed value after [priority=], placed after the clauses of
    assigned_to and state and before the clause of short_description; an
    absent or blank priority has none; the query is that list joined by
    carets.  When no trimmed filter value holds a caret, the pieces of the
    query between its carets that begin with [priority=] are that clause, or
    none; a caret inside another value can bring a [priority=] piece of its
    own, as the state [1^priority=1] does. *)
Theorem C3_priority_clause_when_nonblank :
  (forall params : SnTool.Params,
      SnSchema.parse (sn_raw params) = Some params)
  /\ (forall params : SnTool.Params,
         queryParts params
         = sn_clause params AssignedTo ++ sn_clause params State ++
           priority_clause params ++ sn_clause params ShortDescription)
  /\ (forall params : SnTool.Params,
         sysparm_query params
         = join (str "^")
             (sn_clause params AssignedTo ++ sn_clause params State ++
              priority_clause params ++ sn_clause params ShortDescription))
  /\ (forall params : SnTool.Params,
         clauses_of (str "priority=") (queryParts params)
         = priority_clause params)
  /\ (forall params : SnTool.Params,
         queryParts params <> [] ->
         (forall f s, sn_value f params = Some s -> count 94%N (trim s) = 0) ->
         clauses_of (str "priority=")
           (split (sysparm_query params) (str "^"))
         = priority_clause params)
  /\ (SnTool.priority caret_params = None
      /\ split (sysparm_query caret_params) (str "^")
         = [str "state=1"; str "priority=1"]).
Proof.
  assert (Horder : forall params : SnTool.Params,
             queryParts params
             = sn_clause params AssignedTo ++ sn_clause params State ++
               priority_clause params ++ sn_clause params ShortDescription).
  { intros params. rewrite queryParts_in_order. cbn [flat_map].
    now rewrite app_nil_r. }
  split; [apply parse_sn_raw|].
  split; [exact Horder|].
  split; [intros params; unfold sysparm_query; now rewrite Horder|].
  split; [intros params; apply (queryParts_clauses params Priority)|].
  split; [|split; reflexivity].
  intros params Hne Hv.
  pose proof (queryParts_carets params Hv) as Hc.
  unfold sysparm_query. change (str "^") with [94%N].
  destruct (queryParts params) as [|x l] eqn:E; [contradiction|].
  transitivity (clauses_of (str "priority=") (x :: l));
    [f_equal; apply (split_join_char 94%N x l Hc)|].
  rewrite <- E. apply (queryParts_clauses params Priority).
Qed.

(** C3 on a call with state 2, priority 1 between spaces and a short
    description. *)
Lemma C3_priority_between_witness :
  queryParts priority_between
  = [str "state=2"; str "priority=1"; str "short_descriptionLIKEdisk"]
  /\ queryParts priority_between <> []
  /\ (forall f s,
         sn_value f priority_between = Some s -> count 94%N (trim s) = 0)
  /\ clauses_of (str "priority=")
       (split (sysparm_query priority_between) (str "^"))
     = [str "priority=1"].
Proof.
  assert (H1 : queryParts priority_between <> []) by discriminate.
  assert (H2 : forall f s,
             sn_value f priority_between = Some s ->
             count 94%N (trim s) = 0).
  { intros f s. destruct f; simpl; intros [= <-]; reflexivity. }
  split; [reflexivity|]. split; [exact H1|]. split; [exact H2|].
  exact (proj1 (proj2 (proj2 (proj2 (proj2
           C3_priority_clause_when_nonblank)))) priority_between H1 H2).
Defined.
